(** * Audible library exporter and credential provisioner

    A shallow embedding of [audibleLibrary.py] and [authenticate.py].

    The two scripts are straight-line Python: they talk to the external
    [audible] client, to the file system and to the terminal, and in between
    they flatten JSON item records into CSV rows.  The embedding keeps that
    shape:

    - JSON values decoded by the client are the inductive [PyVal];
    - Python exceptions are the second constructor of [Res];
    - every observable action (log line, print, file or network operation)
      is appended to a trace carried by the state monad [M];
    - the answers of the outside world (does the file exist, what does the
      API return, does [os.chmod] exist) are fields of the records
      [ExportWorld] and [LoginWorld].
*)

From Stdlib Require Import ZArith List String Ascii Lia Bool.
From Stdlib Require Import DecimalString DecimalZ DecimalPos.
Import ListNotations.

Open Scope Z_scope.
Open Scope string_scope.

(** ** Values and exceptions *)

(** The values that [json] decoding hands to the program.  Python [int] is
    unbounded, hence [Z].  A dict decoded from a JSON object has string keys
    and is kept as an association list, first binding wins.  Characters are
    code points below 256.  Floats are left out: their arithmetic and
    printing are not modelled. *)
#[local] Set Warnings "-register-all".

Inductive PyVal : Type :=
| PyNone
| PyBool (b : bool)
| PyInt (z : Z)
| PyStr (s : string)
| PyList (l : list PyVal)
| PyDict (d : list (string * PyVal)).

(** Exception classes that the two scripts raise, catch or let escape.
    [OSError] stands for the class and its subclasses ([IOError] is an alias
    of it); [SystemExit] is what [sys.exit] raises. *)
Inductive PyExc : Type :=
| TypeError
| ValueError
| KeyError
| AttributeError
| OSError
| EOFError
| AuthenticationError
| APIError
| SystemExit (code : Z).

Inductive Res (A : Type) : Type :=
| Ret (a : A)
| Exc (e : PyExc).
Arguments Ret {A} a.
Arguments Exc {A} e.

(** The serialized credential is an opaque blob. *)
Definition Credential := string.

(** ** Observable actions *)

Inductive Event : Type :=
| EvSetupLogging
| EvLogInfo (msg : string)
| EvLogError (msg : string)
| EvPrint (msg : string)
| EvInput (prompt : string)
| EvGetpass (prompt : string)
| EvExists (path : string)
| EvFromFile (path : string)
| EvClientGet (path : string) (num_results : Z)
              (response_groups sort_by : string)
| EvFromLogin (username password locale : string) (with_username : bool)
| EvMkdir (path : string)
| EvOpenWrite (path : string)
| EvWriteRow (row : list PyVal)
| EvCloseFile (path : string)
| EvToFile (path : string)
| EvChmod (path : string) (mode : Z).

(** Calls that reach the remote service. *)
Definition is_network (e : Event) : bool :=
  match e with
  | EvClientGet _ _ _ _ | EvFromLogin _ _ _ _ => true
  | _ => false
  end.

(** Loading the stored credential. *)
Definition is_credential_load (e : Event) : bool :=
  match e with
  | EvFromFile _ => true
  | _ => false
  end.

(** Actions that create or change something on disk, other than the log
    file opened by [setup_logging]. *)
Definition is_file_write (e : Event) : bool :=
  match e with
  | EvMkdir _ | EvOpenWrite _ | EvWriteRow _ | EvCloseFile _
  | EvToFile _ | EvChmod _ _ => true
  | _ => false
  end.

(** ** Program state *)

(** [trace] is in chronological order.  [csv_file] is the content of
    [data/library.csv] as the rows handed to the CSV writer, [None] until the
    file has been opened for writing.  [auth_file] is the credential written
    by the provisioner and [auth_mode] the permission bits set on it. *)
Record State : Type := mkState {
  trace : list Event;
  csv_file : option (list (list PyVal));
  auth_file : option Credential;
  auth_mode : option Z
}.

Definition init_state : State := mkState [] None None None.

Definition M (A : Type) : Type := State -> Res A * State.

Definition ret {A} (a : A) : M A := fun st => (Ret a, st).

Definition bind {A B} (m : M A) (k : A -> M B) : M B :=
  fun st =>
    match m st with
    | (Ret a, st') => k a st'
    | (Exc e, st') => (Exc e, st')
    end.

Definition raise {A} (e : PyExc) : M A := fun st => (Exc e, st).

Definition lift {A} (r : Res A) : M A := fun st => (r, st).

Definition emit (e : Event) : M unit :=
  fun st =>
    (Ret tt,
     mkState (trace st ++ [e])%list (csv_file st) (auth_file st)
             (auth_mode st)).

Notation "x <- c1 ;; c2" := (bind c1 (fun x => c2))
  (at level 61, c1 at next level, right associativity).
Notation "c1 ;; c2" := (bind c1 (fun _ => c2))
  (at level 61, right associativity).

(** [try: body  except <classes>: handler].  An exception of another class
    passes through. *)
Definition try_except {A} (body : M A) (catches : PyExc -> bool)
    (handler : PyExc -> M A) : M A :=
  fun st =>
    match body st with
    | (Ret a, st') => (Ret a, st')
    | (Exc e, st') => if catches e then handler e st' else (Exc e, st')
    end.

(** [sys.exit(code)]. *)
Definition sys_exit {A} (code : Z) : M A := raise (SystemExit code).

(** Exit status of the process once [main] has returned or an exception has
    escaped from it: an uncaught exception other than [SystemExit] prints a
    traceback and gives status 1. *)
Definition exit_status {A} (r : Res A) : Z :=
  match r with
  | Ret _ => 0
  | Exc (SystemExit code) => code
  | Exc _ => 1
  end.

(** [logging.info] and [logging.error].  The message is the fixed part of the
    f-string; the interpolated exception text is not kept. *)
Definition logging_info (msg : string) : M unit := emit (EvLogInfo msg).
Definition logging_error (msg : string) : M unit := emit (EvLogError msg).
Definition print (msg : string) : M unit := emit (EvPrint msg).

(** ** Built-in operations on values *)

Definition CR : ascii := ascii_of_nat 13.
Definition LF : ascii := ascii_of_nat 10.

(** [str(n)] for an int: the decimal numeral, with a minus sign when
    negative.  The interpreter's configurable cap on the number of digits it
    is willing to print is not modelled. *)
Definition str_int (z : Z) : string := NilZero.string_of_int (Z.to_int z).

Fixpoint zeros (n : nat) : string :=
  match n with
  | O => EmptyString
  | S n' => String "0" (zeros n')
  end.

(** [s.zfill(width)]: pad on the left with ['0'] up to [width]; a leading
    sign stays in front of the padding. *)
Definition zfill (s : string) (width : nat) : string :=
  let fill := (width - String.length s)%nat in
  match fill with
  | O => s
  | _ =>
      match s with
      | String c rest =>
          if (Ascii.eqb c "+" || Ascii.eqb c "-")%bool
          then String c (zeros fill ++ rest)
          else zeros fill ++ s
      | EmptyString => zeros fill
      end
  end.

(** [a // b] with an int [b]: defined on int and on bool (a subclass of int),
    TypeError on every other value. *)
Definition py_floordiv (a : PyVal) (b : Z) : Res Z :=
  match a with
  | PyInt z => Ret (z / b)
  | PyBool t => Ret (Z.b2z t / b)
  | _ => Exc TypeError
  end.

(** [a % b] with an int [b].  On a str, [%] is printf-style formatting, which
    is not modelled: [convert_time] applies [%] only after [//] has succeeded
    on the same operand, so never to a str. *)
Definition py_mod (a : PyVal) (b : Z) : Res Z :=
  match a with
  | PyInt z => Ret (z mod b)
  | PyBool t => Ret (Z.b2z t mod b)
  | _ => Exc TypeError
  end.

(** Iteration ([for x in v], comprehension): a list yields its elements, a
    str its characters as one-character strings, a dict its keys. *)
Fixpoint chars (s : string) : list PyVal :=
  match s with
  | EmptyString => []
  | String c rest => PyStr (String c EmptyString) :: chars rest
  end.

Definition py_iter (v : PyVal) : Res (list PyVal) :=
  match v with
  | PyList l => Ret l
  | PyStr s => Ret (chars s)
  | PyDict d => Ret (map (fun kv => PyStr (fst kv)) d)
  | PyNone | PyBool _ | PyInt _ => Exc TypeError
  end.

Fixpoint lookup (key : string) (d : list (string * PyVal)) : option PyVal :=
  match d with
  | [] => None
  | (k, v) :: d' => if String.eqb k key then Some v else lookup key d'
  end.

(** [v[key]] with a str key: KeyError on a dict without the key, TypeError on
    everything that is not a dict. *)
Definition py_getitem (v : PyVal) (key : string) : Res PyVal :=
  match v with
  | PyDict d =>
      match lookup key d with
      | Some x => Ret x
      | None => Exc KeyError
      end
  | _ => Exc TypeError
  end.

(** [v.get(key, default)]: only a dict has the method. *)
Definition py_get (v : PyVal) (key : string) (default : PyVal) : Res PyVal :=
  match v with
  | PyDict d =>
      match lookup key d with
      | Some x => Ret x
      | None => Ret default
      end
  | _ => Exc AttributeError
  end.

(** [sep.join(items)]: TypeError at the first item that is not a str. *)
Fixpoint str_join (sep : string) (items : list PyVal) : Res string :=
  match items with
  | [] => Ret EmptyString
  | PyStr s :: rest =>
      match rest with
      | [] => Ret s
      | _ =>
          match str_join sep rest with
          | Ret t => Ret (s ++ sep ++ t)
          | Exc e => Exc e
          end
      end
  | _ :: _ => Exc TypeError
  end.

(** The elements of a comprehension are computed in order and the first
    exception ends it. *)
Fixpoint comprehension (f : PyVal -> Res PyVal) (items : list PyVal)
    : Res (list PyVal) :=
  match items with
  | [] => Ret []
  | x :: rest =>
      match f x with
      | Exc e => Exc e
      | Ret y =>
          match comprehension f rest with
          | Ret ys => Ret (y :: ys)
          | Exc e => Exc e
          end
      end
  end.

(** [s.strip()]: whitespace is removed at both ends.  Below 256 the
    whitespace code points are 9-13, 28-32, 133 and 160. *)
Definition is_space (c : ascii) : bool :=
  let n := nat_of_ascii c in
  ((9 <=? n) && (n <=? 13) || (28 <=? n) && (n <=? 32)
   || (n =? 133) || (n =? 160))%nat%bool.

Fixpoint lstrip (s : string) : string :=
  match s with
  | EmptyString => EmptyString
  | String c rest => if is_space c then lstrip rest else s
  end.

Fixpoint rstrip (s : string) : string :=
  match s with
  | EmptyString => EmptyString
  | String c rest =>
      match rstrip rest with
      | EmptyString => if is_space c then EmptyString else String c EmptyString
      | kept => String c kept
      end
  end.

Definition strip (s : string) : string := rstrip (lstrip s).

(** Truth value of a str: only the empty one is false. *)
Definition str_truthy (s : string) : bool :=
  match s with
  | EmptyString => false
  | String _ _ => true
  end.

(** ** The CSV writer

    [csv.writer] with the default dialect: comma delimiter, double quote as
    quote character, doubled inside a quoted field, minimal quoting, and
    CR LF after each record.  A cell that is not a str is written as
    [str(cell)], [None] as the empty field; [str] of a list or a dict is its
    [repr], which is not modelled, so such a cell has no text here. *)

Definition DQUOTE : ascii := ascii_of_nat 34.
Definition CRLF : string := String CR (String LF EmptyString).

Definition csv_special (c : ascii) : bool :=
  (Ascii.eqb c "," || Ascii.eqb c DQUOTE || Ascii.eqb c CR || Ascii.eqb c LF)%bool.

Fixpoint needs_quote (s : string) : bool :=
  match s with
  | EmptyString => false
  | String c rest => (csv_special c || needs_quote rest)%bool
  end.

Fixpoint double_quotes (s : string) : string :=
  match s with
  | EmptyString => EmptyString
  | String c rest =>
      if Ascii.eqb c DQUOTE
      then String DQUOTE (String DQUOTE (double_quotes rest))
      else String c (double_quotes rest)
  end.

Definition csv_field (s : string) : string :=
  if needs_quote s
  then String DQUOTE (double_quotes s ++ String DQUOTE EmptyString)
  else s.

Definition csv_cell (v : PyVal) : option string :=
  match v with
  | PyNone => Some EmptyString
  | PyStr s => Some s
  | PyInt z => Some (str_int z)
  | PyBool true => Some "True"
  | PyBool false => Some "False"
  | PyList _ | PyDict _ => None
  end.

Fixpoint csv_cells (row : list PyVal) : option (list string) :=
  match row with
  | [] => Some []
  | v :: rest =>
      match csv_cell v, csv_cells rest with
      | Some s, Some ss => Some (csv_field s :: ss)
      | _, _ => None
      end
  end.

(** One record as the writer emits it.  A record made of a single empty
    field is written as a pair of quotes. *)
Definition csv_record (row : list PyVal) : option string :=
  match csv_cells row with
  | None => None
  | Some cells =>
      let line := String.concat "," cells in
      match row, line with
      | _ :: _, EmptyString =>
          Some (String DQUOTE (String DQUOTE EmptyString) ++ CRLF)
      | _, _ => Some (line ++ CRLF)
      end
  end.

(** ** The outside world *)

(** What the environment answers to the exporter: whether the log file can
    be opened, whether the credential file exists, what loading it and the
    library request give, and whether creating the directory, opening the
    CSV file and closing it succeed. *)
Record ExportWorld : Type := mkExportWorld {
  ew_setup_logging : Res unit;
  ew_exists : bool;
  ew_from_file : Res Credential;
  ew_client_get : Credential -> Res PyVal;
  ew_mkdir : Res unit;
  ew_open : Res unit;
  ew_close : Res unit
}.

(** What the environment answers to the provisioner: the two lines typed at
    the terminal, the result of the login, of the directory creation and of
    the credential write, whether the [os] module has [chmod] at all, and
    what calling it gives. *)
Record LoginWorld : Type := mkLoginWorld {
  lw_input : Res string;
  lw_getpass : Res string;
  lw_from_login : string -> string -> Res Credential;
  lw_mkdir : Res unit;
  lw_to_file : Res unit;
  lw_has_chmod : bool;
  lw_chmod : Res unit
}.

(** An external call: the attempt is recorded, then the world answers. *)
Definition call {A} (e : Event) (answer : Res A) : M A :=
  emit e ;; lift answer.

Definition set_csv_file (rows : option (list (list PyVal))) : M unit :=
  fun st => (Ret tt, mkState (trace st) rows (auth_file st) (auth_mode st)).

Definition set_auth_file (c : Credential) : M unit :=
  fun st => (Ret tt, mkState (trace st) (csv_file st) (Some c) (auth_mode st)).

Definition set_auth_mode (mode : Z) : M unit :=
  fun st => (Ret tt, mkState (trace st) (csv_file st) (auth_file st) (Some mode)).

(** [writer.writerow(row)] on the open CSV file. *)
Definition writerow (row : list PyVal) : M unit :=
  emit (EvWriteRow row) ;;
  fun st =>
    (Ret tt,
     mkState (trace st)
             (match csv_file st with
              | Some rows => Some (rows ++ [row])%list
              | None => None
              end)
             (auth_file st) (auth_mode st)).

Fixpoint writerows (rows : list (list PyVal)) : M unit :=
  match rows with
  | [] => ret tt
  | row :: rest => writerow row ;; writerows rest
  end.

(** ** audibleLibrary.py *)

Module AudibleLibrary.

Definition convert_time (runtime_minutes : PyVal) : M (PyVal * string) :=
  try_except
    (hours <- lift (py_floordiv runtime_minutes 60) ;;
     minutes <- lift (py_mod runtime_minutes 60) ;;
     let runtime_hm := str_int hours ++ ":" ++ zfill (str_int minutes) 2 in
     ret (runtime_minutes, runtime_hm))
    (fun e => match e with TypeError | ValueError => true | _ => false end)
    (fun _ =>
       logging_error "Error converting runtime" ;;
       ret (PyInt 0, "0:00")).

Definition get_contributors (contributors : PyVal) : M string :=
  try_except
    (items <- lift (py_iter contributors) ;;
     contributor_names <-
       lift (comprehension (fun contributor => py_getitem contributor "name")
                           items) ;;
     lift (str_join ";" contributor_names))
    (fun e => match e with TypeError | KeyError => true | _ => false end)
    (fun _ =>
       logging_error "Error retrieving contributors" ;;
       ret "N/A").

(** The body of the [for book in ...] loop of [get_library], with the list
    being built as accumulator. *)
Fixpoint book_loop (books : list PyVal) (book_list : list (list PyVal))
    : M (list (list PyVal)) :=
  match books with
  | [] => ret book_list
  | book :: rest =>
      a <- lift (py_get book "authors" (PyList [])) ;;
      authors <- get_contributors a ;;
      n <- lift (py_get book "narrators" (PyList [])) ;;
      narrators <- get_contributors n ;;
      title <- lift (py_get book "title" (PyStr "Unknown Title")) ;;
      purchased <-
        lift (py_get book "purchase_date" (PyStr "Unknown Purchase Date")) ;;
      released <-
        lift (py_get book "release_date" (PyStr "Unknown Release Date")) ;;
      runtime_length <- lift (py_get book "runtime_length_min" (PyInt 0)) ;;
      rt <- convert_time runtime_length ;;
      let runtime_mmm := fst rt in
      let runtime_hm := snd rt in
      book_loop rest
        (book_list ++
         [[PyStr authors; title; PyStr narrators; runtime_mmm;
           PyStr runtime_hm; released; purchased]])%list
  end.

Definition get_library (w : ExportWorld) (auth_file : string)
    : M (list (list PyVal)) :=
  emit (EvExists auth_file) ;;
  (if negb (ew_exists w)
   then logging_error "Authentication file not found" ;; sys_exit 1
   else ret tt) ;;
  AUTH <-
    try_except
      (call (EvFromFile auth_file) (ew_from_file w))
      (fun e => match e with AuthenticationError => true | _ => false end)
      (fun _ => logging_error "Failed to authenticate" ;; sys_exit 1) ;;
  library <-
    try_except
      (call (EvClientGet "1.0/library" 1000
                         "product_desc, product_attrs, contributors" "Author")
            (ew_client_get w AUTH))
      (fun e => match e with APIError => true | _ => false end)
      (fun _ => logging_error "API request failed" ;; sys_exit 1) ;;
  items <- lift (py_get library "items" (PyList [])) ;;
  books <- lift (py_iter items) ;;
  book_loop books [].

Definition fields : list PyVal :=
  [PyStr "authors"; PyStr "title"; PyStr "narrators"; PyStr "runtime_mmm";
   PyStr "runtime_hm"; PyStr "released"; PyStr "purchased"].

Definition write_library (w : ExportWorld) (library : list (list PyVal))
    (output_file output_dir : string) : M unit :=
  try_except
    (call (EvMkdir output_dir) (ew_mkdir w) ;;
     call (EvOpenWrite output_file) (ew_open w) ;;
     set_csv_file (Some []) ;;
     writerow fields ;;
     writerows library ;;
     call (EvCloseFile output_file) (ew_close w) ;;
     logging_info "Library data written")
    (fun e => match e with OSError => true | _ => false end)
    (fun _ => logging_error "Failed to write CSV file" ;; sys_exit 1).

Definition setup_logging (w : ExportWorld) : M unit :=
  call EvSetupLogging (ew_setup_logging w).

Definition AUTH_FILE : string := "auth/audible_auth.txt".
Definition OUTPUT_FILE : string := "data/library.csv".

Definition main (w : ExportWorld) : M unit :=
  setup_logging w ;;
  logging_info "Starting Audible library retrieval." ;;
  library <- get_library w AUTH_FILE ;;
  write_library w library OUTPUT_FILE "data" ;;
  logging_info "Audible library retrieval completed successfully.".

End AudibleLibrary.

(** ** authenticate.py *)

Module Authenticate.

Definition COUNTRY_CODE : string := "us".
Definition FILENAME : string := "auth/audible_auth.txt".

(** [os.chmod(path, mode)]: looking the function up in [os] raises
    AttributeError where the module does not have it. *)
Definition os_chmod (w : LoginWorld) (path : string) (mode : Z) : M unit :=
  if lw_has_chmod w
  then call (EvChmod path mode) (lw_chmod w) ;; set_auth_mode mode
  else raise AttributeError.

Definition main (w : LoginWorld) : M unit :=
  typed_user <- call (EvInput "User: ") (lw_input w) ;;
  let USERNAME := strip typed_user in
  typed_password <- call (EvGetpass "Password: ") (lw_getpass w) ;;
  let PASSWORD := strip typed_password in
  (if (negb (str_truthy USERNAME) || negb (str_truthy PASSWORD))%bool
   then print "Username and password cannot be empty." ;; sys_exit 1
   else ret tt) ;;
  auth <-
    try_except
      (call (EvFromLogin USERNAME PASSWORD COUNTRY_CODE false)
            (lw_from_login w USERNAME PASSWORD))
      (fun e => match e with AuthenticationError => true | _ => false end)
      (fun _ => print "Authentication failed" ;; sys_exit 1) ;;
  try_except
    (call (EvMkdir "auth") (lw_mkdir w) ;;
     call (EvToFile FILENAME) (lw_to_file w) ;;
     set_auth_file auth ;;
     try_except
       (os_chmod w FILENAME 384)
       (fun e => match e with AttributeError => true | _ => false end)
       (fun _ => ret tt) ;;
     print "Authentication details saved to auth/audible_auth.txt")
    (fun e => match e with OSError => true | _ => false end)
    (fun _ => print "Failed to write authentication file" ;; sys_exit 1).

End Authenticate.

(** ** The specification's wording *)

(** The decimal digit [d], for [0 <= d <= 9]. *)
Definition digit (d : Z) : ascii := ascii_of_nat (48 + Z.to_nat d).

(** [r] zero-padded to two digits: the tens digit, then the units digit. *)
Definition two_digits (r : Z) : string :=
  String (digit (r / 10)) (String (digit (r mod 10)) EmptyString).

(** ["H:MM"]: [m div 60], a colon, [m mod 60] on two digits. *)
Definition spec_hm (m : Z) : string :=
  str_int (m / 60) ++ ":" ++ two_digits (m mod 60).

(** Reading a decimal numeral back, as [int(s)] does. *)
Definition parse_int (s : string) : option Z :=
  option_map Z.of_int (NilZero.int_of_string s).

Definition minutes_range : list Z := map Z.of_nat (seq 0 60).

(** An integer in the data model's sense: a JSON number without fraction. *)
Definition is_integer (v : PyVal) : bool :=
  match v with
  | PyInt _ => true
  | _ => false
  end.

(** The operands on which Python's integer arithmetic is defined. *)
Definition is_int_like (v : PyVal) : bool :=
  match v with
  | PyInt _ | PyBool _ => true
  | _ => false
  end.

(** A value that [for] can iterate over. *)
Definition iterable (v : PyVal) : bool :=
  match v with
  | PyList _ | PyStr _ | PyDict _ => true
  | PyNone | PyBool _ | PyInt _ => false
  end.

Definition is_dict (v : PyVal) : bool :=
  match v with
  | PyDict _ => true
  | _ => false
  end.

(** A contributor record exposing the text [name] in its ['name'] field. *)
Definition has_name (c : PyVal) (name : string) : Prop :=
  exists d, c = PyDict d /\ lookup "name" d = Some (PyStr name).

(** An element without a ['name'] field: a dict that has no such key, or a
    value that is no record at all. *)
Definition lacks_name (c : PyVal) : bool :=
  match c with
  | PyDict d =>
      match lookup "name" d with
      | Some _ => false
      | None => true
      end
  | _ => true
  end.

(** The state after one more error line in the log. *)
Definition logged (msg : string) (st : State) : State :=
  mkState (trace st ++ [EvLogError msg])%list (csv_file st) (auth_file st)
          (auth_mode st).

(** The value a computation returns when started in a fresh process. *)
Definition value_of {A} (m : M A) : Res A := fst (m init_state).

(** ** Pure readings of the loop body

    The two conversions touch the state only to log.  Their values are the
    following functions of the argument, proved equal to the monadic code
    below and used to describe the rows of the CSV file. *)

Definition name_of (contributor : PyVal) : Res PyVal :=
  py_getitem contributor "name".

Definition contributors_result (v : PyVal) : Res string :=
  match py_iter v with
  | Exc e => Exc e
  | Ret items =>
      match comprehension name_of items with
      | Exc e => Exc e
      | Ret names => str_join ";" names
      end
  end.

Definition contributors_text (v : PyVal) : string :=
  match contributors_result v with
  | Ret s => s
  | Exc _ => "N/A"
  end.

Definition contributors_state (v : PyVal) (st : State) : State :=
  match contributors_result v with
  | Ret _ => st
  | Exc _ => logged "Error retrieving contributors" st
  end.

Definition runtime_pair (v : PyVal) : PyVal * string :=
  match py_floordiv v 60, py_mod v 60 with
  | Ret hours, Ret minutes =>
      (v, str_int hours ++ ":" ++ zfill (str_int minutes) 2)
  | _, _ => (PyInt 0, "0:00")
  end.

Definition runtime_state (v : PyVal) (st : State) : State :=
  if is_int_like v then st else logged "Error converting runtime" st.

(** [d.get(key, default)] on a dict. *)
Definition dict_get (d : list (string * PyVal)) (key : string)
    (default : PyVal) : PyVal :=
  match lookup key d with
  | Some x => x
  | None => default
  end.

(** The row appended for the item record [d]. *)
Definition book_row (d : list (string * PyVal)) : list PyVal :=
  let rt := runtime_pair (dict_get d "runtime_length_min" (PyInt 0)) in
  [PyStr (contributors_text (dict_get d "authors" (PyList [])));
   dict_get d "title" (PyStr "Unknown Title");
   PyStr (contributors_text (dict_get d "narrators" (PyList [])));
   fst rt;
   PyStr (snd rt);
   dict_get d "release_date" (PyStr "Unknown Release Date");
   dict_get d "purchase_date" (PyStr "Unknown Purchase Date")].

(** The state after the loop body has run on the item record [d]. *)
Definition book_state (d : list (string * PyVal)) (st : State) : State :=
  runtime_state (dict_get d "runtime_length_min" (PyInt 0))
    (contributors_state (dict_get d "narrators" (PyList []))
       (contributors_state (dict_get d "authors" (PyList [])) st)).

(** The rows of a list of values, for those that are item records. *)
Fixpoint book_rows (books : list PyVal) : list (list PyVal) :=
  match books with
  | [] => []
  | PyDict d :: rest => book_row d :: book_rows rest
  | _ :: rest => book_rows rest
  end.

Fixpoint book_states (books : list PyVal) (st : State) : State :=
  match books with
  | [] => st
  | PyDict d :: rest => book_states rest (book_state d st)
  | _ :: rest => book_states rest st
  end.

Definition header_line : string :=
  "authors,title,narrators,runtime_mmm,runtime_hm,released,purchased".

(** The state after one more action in the trace. *)
Definition emitted (e : Event) (st : State) : State :=
  mkState (trace st ++ [e])%list (csv_file st) (auth_file st) (auth_mode st).

(** The state after the CSV file has been opened for writing, which empties
    it. *)
Definition opened (st : State) : State :=
  mkState (trace st) (Some []) (auth_file st) (auth_mode st).

(** The state after [rows] have gone through the CSV writer. *)
Definition wrote (rows : list (list PyVal)) (st : State) : State :=
  mkState (trace st ++ map EvWriteRow rows)%list
          (match csv_file st with
           | Some old => Some (old ++ rows)%list
           | None => None
           end)
          (auth_file st) (auth_mode st).

(** No action of the trace satisfies [p]. *)
Definition never (p : Event -> bool) (st : State) : bool :=
  forallb (fun e => negb (p e)) (trace st).

(** A world in which every step of the exporter succeeds and the library
    request returns [payload], whose items are [items]. *)
Definition export_succeeds (w : ExportWorld) (c : Credential)
    (payload : list (string * PyVal)) (items : list PyVal) : Prop :=
  ew_setup_logging w = Ret tt
  /\ ew_exists w = true
  /\ ew_from_file w = Ret c
  /\ ew_client_get w c = Ret (PyDict payload)
  /\ lookup "items" payload = Some (PyList items)
  /\ ew_mkdir w = Ret tt
  /\ ew_open w = Ret tt
  /\ ew_close w = Ret tt.

(** A world in which every step of the exporter succeeds and the library
    request answers [payload]. *)
Definition world_serving (payload : PyVal) : ExportWorld :=
  mkExportWorld (Ret tt) true (Ret "credential") (fun _ => Ret payload)
                (Ret tt) (Ret tt) (Ret tt).

(** Two item records: a complete one and an empty one. *)
Definition sample_book : PyVal :=
  PyDict [("title", PyStr "Dune");
          ("authors", PyList [PyDict [("name", PyStr "Frank Herbert")]]);
          ("narrators", PyList [PyDict [("name", PyStr "A")];
                                PyDict [("name", PyStr "B")]]);
          ("runtime_length_min", PyInt 125);
          ("release_date", PyStr "2007-01-01");
          ("purchase_date", PyStr "2020-05-17")].

Definition empty_book : PyVal := PyDict [].

Definition sample_items : list PyVal := [sample_book; empty_book].

Definition sample_payload : list (string * PyVal) :=
  [("items", PyList sample_items)].

(** A world in which the credential file is absent. *)
Definition world_without_credential : ExportWorld :=
  mkExportWorld (Ret tt) false (Ret "credential") (fun _ => Ret PyNone)
                (Ret tt) (Ret tt) (Ret tt).

(** A terminal session at which [user] and [password] are typed, on a
    platform whose [os] module has [chmod] or not, with a service that
    accepts the login. *)
Definition session (user password : string) (has_chmod : bool) : LoginWorld :=
  mkLoginWorld (Ret user) (Ret password) (fun _ _ => Ret "credential")
               (Ret tt) (Ret tt) has_chmod (Ret tt).

(** A session on a platform where [os.chmod] exists and fails. *)
Definition session_chmod_fails (user password : string) : LoginWorld :=
  mkLoginWorld (Ret user) (Ret password) (fun _ _ => Ret "credential")
               (Ret tt) (Ret tt) true (Exc OSError).

(** ** Definitions for the further properties *)

(** Reading ["H:MM"] back: the text is cut at its first colon and both parts
    are read as decimal numerals. *)
Fixpoint has_colon (s : string) : bool :=
  match s with
  | EmptyString => false
  | String c rest => (Ascii.eqb c ":" || has_colon rest)%bool
  end.

Fixpoint split_colon (s : string) : option (string * string) :=
  match s with
  | EmptyString => None
  | String c rest =>
      if Ascii.eqb c ":" then Some (EmptyString, rest)
      else
        match split_colon rest with
        | Some (before, after) => Some (String c before, after)
        | None => None
        end
  end.

Definition minutes_of_hm (s : string) : option Z :=
  match split_colon s with
  | Some (h, mm) =>
      match parse_int h, parse_int mm with
      | Some hours, Some minutes => Some (60 * hours + minutes)
      | _, _ => None
      end
  | None => None
  end.

(** A str made of whitespace only (the empty one included). *)
Fixpoint all_space (s : string) : bool :=
  match s with
  | EmptyString => true
  | String c rest => (is_space c && all_space rest)%bool
  end.

(** A contributor record whose ['name'] field holds a str. *)
Definition text_name (c : PyVal) : bool :=
  match c with
  | PyDict d =>
      match lookup "name" d with
      | Some (PyStr _) => true
      | _ => false
      end
  | _ => false
  end.

Definition is_str (v : PyVal) : bool :=
  match v with
  | PyStr _ => true
  | _ => false
  end.

(** What the loop of [get_library] iterates over:
    [library.get("items", [])], then the iteration of that value. *)
Definition payload_items (library : PyVal) : Res (list PyVal) :=
  match py_get library "items" (PyList []) with
  | Ret items => py_iter items
  | Exc e => Exc e
  end.

(** The item records that come before the first value that is not one. *)
Fixpoint dict_prefix (books : list PyVal) : list PyVal :=
  match books with
  | PyDict d :: rest => PyDict d :: dict_prefix rest
  | _ => []
  end.

(** The state of the exporter once the log is set up and the start line is
    logged, and the state once the library has been fetched. *)
Definition started : State :=
  emitted (EvLogInfo "Starting Audible library retrieval.")
          (emitted EvSetupLogging init_state).

Definition library_request : Event :=
  EvClientGet "1.0/library" 1000 "product_desc, product_attrs, contributors"
              "Author".

Definition fetched (st : State) : State :=
  emitted library_request
    (emitted (EvFromFile AudibleLibrary.AUTH_FILE)
       (emitted (EvExists AudibleLibrary.AUTH_FILE) st)).

Import AudibleLibrary.

(** * Properties *)

(** ** Decimal printing and padding *)

Lemma to_int_not_nil (z : Z) (sign : Decimal.uint -> Decimal.signed_int) :
  (sign = Decimal.Pos \/ sign = Decimal.Neg) ->
  Z.to_int z <> sign Decimal.Nil.
Proof.
  intros [-> | ->]; destruct z as [|p|p]; simpl; try discriminate;
    intro H; injection H as H;
    exact (DecimalPos.Unsigned.to_uint_nonnil p H).
Qed.

(** [str_int] prints the decimal numeral of its argument. *)
Lemma parse_str_int (z : Z) : parse_int (str_int z) = Some z.
Proof.
  unfold parse_int, str_int.
  rewrite NilZero.isi by (apply to_int_not_nil; auto).
  simpl. now rewrite DecimalZ.of_to.
Qed.

Lemma zfill_minutes_range :
  forallb (fun r => String.eqb (zfill (str_int r) 2) (two_digits r))
          minutes_range = true.
Proof. vm_compute. reflexivity. Qed.

(** On a remainder modulo 60, [str(r).zfill(2)] is the two-digit numeral. *)
Lemma zfill_two_digits (r : Z) :
  0 <= r < 60 -> zfill (str_int r) 2 = two_digits r.
Proof.
  intros Hr.
  apply String.eqb_eq.
  apply (proj1 (forallb_forall _ _) zfill_minutes_range r).
  unfold minutes_range.
  rewrite <- (Z2Nat.id r) by lia.
  apply in_map, in_seq. lia.
Qed.

(** ** convert_time *)

(** On an int the try body runs to its end: nothing is logged and the
    formatted runtime is the specification's ["H:MM"]. *)
Lemma convert_time_int (m : Z) (st : State) :
  convert_time (PyInt m) st = (Ret (PyInt m, spec_hm m), st).
Proof.
  cbv [convert_time try_except bind lift ret py_floordiv py_mod spec_hm].
  rewrite zfill_two_digits; [reflexivity|].
  apply Z.mod_pos_bound. lia.
Qed.

(** C1. For every non-negative integer [m], [convert_time(m)] returns the
    pair [(m, s)] where [s] is [m div 60], a colon, and [m mod 60] on two
    digits; the hour part reads back as [m div 60].  At 125, 59 and 0 the
    results are ["2:05"], ["0:59"] and ["0:00"]. *)
Theorem convert_time_nonneg (m : Z) (st : State) :
  0 <= m ->
  convert_time (PyInt m) st = (Ret (PyInt m, spec_hm m), st)
  /\ parse_int (str_int (m / 60)) = Some (m / 60)
  /\ 0 <= m / 60
  /\ 0 <= m mod 60 < 60.
Proof.
  intros Hm. repeat split.
  - apply convert_time_int.
  - apply parse_str_int.
  - apply Z.div_pos; lia.
  - apply Z.mod_pos_bound; lia.
  - apply Z.mod_pos_bound; lia.
Qed.

Lemma convert_time_nonneg_witness :
  convert_time (PyInt 125) init_state = (Ret (PyInt 125, "2:05"), init_state)
  /\ convert_time (PyInt 59) init_state = (Ret (PyInt 59, "0:59"), init_state)
  /\ convert_time (PyInt 0) init_state = (Ret (PyInt 0, "0:00"), init_state).
Proof.
  split; [|split].
  - apply (convert_time_nonneg 125 init_state). lia.
  - apply (convert_time_nonneg 59 init_state). lia.
  - apply (convert_time_nonneg 0 init_state). lia.
Defined.

(** C10. For every negative integer [m], [convert_time(m)] does not take the
    fallback: it returns [(m, s)] with [s] built from the floor quotient,
    which is negative, and the remainder, which lies in 0..59. *)
Theorem convert_time_negative (m : Z) (st : State) :
  m < 0 ->
  convert_time (PyInt m) st = (Ret (PyInt m, spec_hm m), st)
  /\ m = 60 * (m / 60) + m mod 60
  /\ m / 60 < 0
  /\ 0 <= m mod 60 < 60
  /\ (PyInt m, spec_hm m) <> (PyInt 0, "0:00").
Proof.
  intros Hm.
  assert (Hr : 0 <= m mod 60 < 60) by (apply Z.mod_pos_bound; lia).
  assert (Hd : m = 60 * (m / 60) + m mod 60) by (apply Z_div_mod_eq_full).
  repeat split; try lia.
  - apply convert_time_int.
  - intro H. injection H as H _. lia.
Qed.

Lemma convert_time_negative_witness :
  convert_time (PyInt (-5)) init_state
    = (Ret (PyInt (-5), "-1:55"), init_state)
  /\ convert_time (PyInt (-60)) init_state
    = (Ret (PyInt (-60), "-1:00"), init_state).
Proof.
  split.
  - apply (convert_time_negative (-5) init_state). lia.
  - apply (convert_time_negative (-60) init_state). lia.
Defined.

(** The value and the state of [convert_time] on any argument: only
    TypeError can come out of the try body, and it is caught. *)
Lemma convert_time_run (v : PyVal) (st : State) :
  convert_time v st = (Ret (runtime_pair v), runtime_state v st).
Proof. destruct v; reflexivity. Qed.

(** C5, as amended. On [None], a str, a list or a dict, the floor division
    raises TypeError, and [convert_time] logs the error and returns
    [(0, "0:00")]. *)
Theorem convert_time_fallback (v : PyVal) (st : State) :
  is_int_like v = false ->
  convert_time v st
    = (Ret (PyInt 0, "0:00"), logged "Error converting runtime" st).
Proof.
  destruct v; simpl; intros H; try discriminate; reflexivity.
Qed.

Lemma convert_time_fallback_witness :
  convert_time PyNone init_state
    = (Ret (PyInt 0, "0:00"),
       logged "Error converting runtime" init_state)
  /\ convert_time (PyStr "abc") init_state
    = (Ret (PyInt 0, "0:00"),
       logged "Error converting runtime" init_state).
Proof.
  split.
  - apply (convert_time_fallback PyNone init_state). reflexivity.
  - apply (convert_time_fallback (PyStr "abc") init_state). reflexivity.
Defined.

(** C5, as stated, fails on a bool: [True] is not an integer runtime, yet
    [True // 60] is [0] and [True % 60] is [1], so the try body succeeds and
    the input comes back with ["0:01"]. *)
Lemma convert_time_bool_counterexample :
  is_integer (PyBool true) = false
  /\ convert_time (PyBool true) init_state
     = (Ret (PyBool true, "0:01"), init_state)
  /\ fst (convert_time (PyBool true) init_state) <> Ret (PyInt 0, "0:00").
Proof.
  repeat split. intro H. discriminate H.
Qed.

(** ** get_contributors *)

Lemma str_join_names (sep : string) (names : list string) :
  str_join sep (map PyStr names) = Ret (String.concat sep names).
Proof.
  induction names as [|n rest IH]; [reflexivity|].
  destruct rest as [|n' rest]; [reflexivity|].
  change (str_join sep (map PyStr (n :: n' :: rest)))
    with (match str_join sep (map PyStr (n' :: rest)) with
          | Ret t => Ret (n ++ sep ++ t)
          | Exc e => Exc e
          end).
  now rewrite IH.
Qed.

Lemma str_join_raises (sep : string) (items : list PyVal) (e : PyExc) :
  str_join sep items = Exc e -> e = TypeError.
Proof.
  revert e. induction items as [|x rest IH]; intros e; [discriminate|].
  destruct x; simpl; try (intros H; injection H as <-; reflexivity).
  destruct rest as [|y rest']; [discriminate|].
  destruct (str_join sep (y :: rest')) eqn:E; [discriminate|].
  intros H. injection H as <-. now apply IH.
Qed.

Lemma name_of_raises (c : PyVal) (e : PyExc) :
  name_of c = Exc e -> e = TypeError \/ e = KeyError.
Proof.
  unfold name_of.
  destruct c; simpl; try (intros H; injection H as <-; auto).
  destruct (lookup "name" d); [discriminate|].
  intros H; injection H as <-; auto.
Qed.

Lemma name_of_lacking (c : PyVal) :
  lacks_name c = true -> exists e, name_of c = Exc e.
Proof.
  unfold name_of.
  destruct c; simpl; eauto.
  destruct (lookup "name" d); [discriminate|eauto].
Qed.

Lemma comprehension_raises (items : list PyVal) (e : PyExc) :
  comprehension name_of items = Exc e -> e = TypeError \/ e = KeyError.
Proof.
  induction items as [|x rest IH]; simpl; [discriminate|].
  destruct (name_of x) eqn:Ex.
  - destruct (comprehension name_of rest); [discriminate|].
    intros H; injection H as <-. now apply IH.
  - intros H; injection H as <-. now apply name_of_raises with x.
Qed.

Lemma comprehension_names (items : list PyVal) (names : list string) :
  Forall2 has_name items names ->
  comprehension name_of items = Ret (map PyStr names).
Proof.
  induction 1 as [|c name items names [d [-> Hd]] _ IH]; [reflexivity|].
  cbn [comprehension]. unfold name_of at 1. cbn [py_getitem].
  rewrite Hd, IH. reflexivity.
Qed.

Lemma comprehension_lacking (items : list PyVal) :
  existsb lacks_name items = true ->
  exists e, comprehension name_of items = Exc e.
Proof.
  induction items as [|x rest IH]; simpl; [discriminate|].
  intros H. apply orb_true_iff in H.
  destruct (name_of x) eqn:Ex; [|eauto].
  destruct H as [H | H].
  - apply name_of_lacking in H. destruct H as [e H]. congruence.
  - destruct (IH H) as [e ->]. eauto.
Qed.

Lemma contributors_result_raises (v : PyVal) (e : PyExc) :
  contributors_result v = Exc e -> e = TypeError \/ e = KeyError.
Proof.
  unfold contributors_result.
  destruct (py_iter v) as [items|e0] eqn:Ei.
  - destruct (comprehension name_of items) as [names|e1] eqn:Ec.
    + intros H. left. now apply str_join_raises in H.
    + intros H; injection H as <-. now apply comprehension_raises in Ec.
  - intros H; injection H as <-.
    destruct v; simpl in Ei; try discriminate; injection Ei as <-; auto.
Qed.

(** The value and the state of [get_contributors] on any argument: whatever
    the try body raises is a TypeError or a KeyError, and is caught. *)
Lemma get_contributors_run (v : PyVal) (st : State) :
  get_contributors v st = (Ret (contributors_text v), contributors_state v st).
Proof.
  pose proof (contributors_result_raises v) as Hexc.
  unfold contributors_text, contributors_state.
  unfold contributors_result in *.
  unfold get_contributors, try_except, bind, lift.
  change (fun contributor => py_getitem contributor "name") with name_of.
  destruct (py_iter v) as [items|e0].
  - destruct (comprehension name_of items) as [names|e1].
    + destruct (str_join ";" names) as [s|e2]; [reflexivity|].
      destruct (Hexc e2 eq_refl) as [-> | ->]; reflexivity.
    + destruct (Hexc e1 eq_refl) as [-> | ->]; reflexivity.
  - destruct (Hexc e0 eq_refl) as [-> | ->]; reflexivity.
Qed.

(** C2. On a list of contributor records that each expose a text ['name'],
    [get_contributors] returns the names joined by semicolons in input order
    and logs nothing.  On a value that cannot be iterated, and on a list with
    at least one element lacking ['name'], it logs the error and returns
    ["N/A"].  On no value does it raise. *)
Theorem get_contributors_spec :
  (forall (l : list PyVal) (names : list string) (st : State),
      Forall2 has_name l names ->
      get_contributors (PyList l) st = (Ret (String.concat ";" names), st))
  /\ (forall (v : PyVal) (st : State),
      iterable v = false ->
      get_contributors v st
        = (Ret "N/A", logged "Error retrieving contributors" st))
  /\ (forall (l : list PyVal) (st : State),
      existsb lacks_name l = true ->
      get_contributors (PyList l) st
        = (Ret "N/A", logged "Error retrieving contributors" st))
  /\ (forall (v : PyVal) (st : State),
      exists s st', get_contributors v st = (Ret s, st')).
Proof.
  repeat split.
  - intros l names st H.
    rewrite get_contributors_run.
    unfold contributors_text, contributors_state, contributors_result.
    cbn [py_iter].
    rewrite (comprehension_names _ _ H), str_join_names. reflexivity.
  - intros v st H.
    destruct v; try discriminate H; reflexivity.
  - intros l st H.
    rewrite get_contributors_run.
    unfold contributors_text, contributors_state, contributors_result.
    cbn [py_iter].
    destruct (comprehension_lacking _ H) as [e ->]. reflexivity.
  - intros v st. rewrite get_contributors_run. eauto.
Qed.

Lemma get_contributors_spec_witness :
  get_contributors
    (PyList [PyDict [("name", PyStr "A")]; PyDict [("name", PyStr "B")]])
    init_state = (Ret "A;B", init_state)
  /\ get_contributors (PyList []) init_state = (Ret EmptyString, init_state)
  /\ get_contributors PyNone init_state
     = (Ret "N/A", logged "Error retrieving contributors" init_state)
  /\ get_contributors
       (PyList [PyDict [("name", PyStr "A")]; PyDict [("id", PyStr "B")]])
       init_state
     = (Ret "N/A", logged "Error retrieving contributors" init_state).
Proof.
  destruct get_contributors_spec as [Hjoin [Hiter [Hlack _]]].
  split; [|split; [|split]].
  - apply (Hjoin _ ["A"; "B"]).
    repeat constructor; eexists; (split; [reflexivity|reflexivity]).
  - apply (Hjoin [] []). constructor.
  - apply Hiter. reflexivity.
  - apply Hlack. reflexivity.
Defined.

(** ** The loop of get_library *)

Lemma py_get_dict (d : list (string * PyVal)) (key : string)
    (default : PyVal) :
  py_get (PyDict d) key default = Ret (dict_get d key default).
Proof. unfold py_get, dict_get. now destruct (lookup key d). Qed.

(** On an item record the body of the loop never raises: the two
    conversions return on every value and [get] supplies the defaults. *)
Lemma book_loop_dict (d : list (string * PyVal)) (rest : list PyVal)
    (acc : list (list PyVal)) (st : State) :
  book_loop (PyDict d :: rest) acc st
    = book_loop rest (acc ++ [book_row d])%list (book_state d st).
Proof.
  cbn [book_loop]. rewrite !py_get_dict. cbv [bind lift].
  rewrite get_contributors_run, get_contributors_run, convert_time_run.
  reflexivity.
Qed.

Lemma book_loop_dicts (books : list PyVal) (acc : list (list PyVal))
    (st : State) :
  forallb is_dict books = true ->
  book_loop books acc st
    = (Ret (acc ++ book_rows books)%list, book_states books st).
Proof.
  revert acc st.
  induction books as [|book rest IH]; intros acc st H.
  - cbn. now rewrite app_nil_r.
  - cbn [forallb] in H. apply andb_true_iff in H. destruct H as [Hb Hrest].
    destruct book; try discriminate Hb.
    rewrite book_loop_dict, IH by assumption.
    cbn [book_rows book_states]. now rewrite <- app_assoc.
Qed.

Lemma book_rows_length (books : list PyVal) :
  forallb is_dict books = true ->
  List.length (book_rows books) = List.length books.
Proof.
  induction books as [|book rest IH]; [reflexivity|].
  cbn [forallb]. intros H. apply andb_true_iff in H. destruct H as [Hb Hrest].
  destruct book; try discriminate Hb.
  cbn [book_rows List.length]. now rewrite IH.
Qed.

(** Each row is the one the loop gives for its item alone, and the rows
    stand in the order of the items. *)
Lemma book_rows_pointwise (books : list PyVal) :
  forallb is_dict books = true ->
  Forall2 (fun book row => value_of (book_loop [book] []) = Ret [row])
          books (book_rows books).
Proof.
  induction books as [|book rest IH]; [constructor|].
  cbn [forallb]. intros H. apply andb_true_iff in H. destruct H as [Hb Hrest].
  destruct book; try discriminate Hb.
  cbn [book_rows]. constructor; [|now apply IH].
  unfold value_of. now rewrite book_loop_dict.
Qed.

(** Logging leaves the files alone. *)
Lemma book_states_files (books : list PyVal) (st : State) :
  csv_file (book_states books st) = csv_file st
  /\ auth_file (book_states books st) = auth_file st.
Proof.
  revert st. induction books as [|book rest IH]; intros st; [now split|].
  destruct book; cbn [book_states]; try apply IH.
  destruct (IH (book_state d st)) as [-> ->].
  unfold book_state, runtime_state, contributors_state.
  repeat match goal with
         | |- context [match ?x with _ => _ end] => destruct x
         end; now split.
Qed.

(** ** write_library *)

Lemma writerows_run (rows : list (list PyVal)) (st : State) :
  writerows rows st = (Ret tt, wrote rows st).
Proof.
  revert st. induction rows as [|row rest IH]; intros st.
  - unfold wrote. cbn. rewrite app_nil_r.
    destruct st as [tr [old|] af am]; cbn; now rewrite ?app_nil_r.
  - cbn [writerows]. unfold bind at 1.
    change (writerow row st) with (Ret tt, wrote [row] st).
    cbv beta iota. rewrite IH. f_equal.
    unfold wrote. destruct st as [tr [old|] af am]; cbn;
      now rewrite <- ?app_assoc.
Qed.

(** Once the directory is there and the file is open, the file holds the
    header followed by the rows of the library, whatever closing it does. *)
Lemma write_library_rows (w : ExportWorld) (library : list (list PyVal))
    (file dir : string) (st : State) :
  ew_mkdir w = Ret tt ->
  ew_open w = Ret tt ->
  csv_file (snd (write_library w library file dir st))
    = Some (fields :: library).
Proof.
  intros Hm Ho.
  unfold write_library, try_except.
  cbv [bind call emit lift set_csv_file logging_info logging_error sys_exit
       raise].
  rewrite Hm, Ho.
  change (writerow fields ?s) with (Ret tt, wrote [fields] s).
  cbv beta iota.
  rewrite writerows_run.
  destruct (ew_close w) as [[]|e]; [reflexivity|].
  destruct e; reflexivity.
Qed.

Lemma write_library_ok (w : ExportWorld) (library : list (list PyVal))
    (file dir : string) (st : State) :
  ew_mkdir w = Ret tt ->
  ew_open w = Ret tt ->
  ew_close w = Ret tt ->
  fst (write_library w library file dir st) = Ret tt.
Proof.
  intros Hm Ho Hc.
  unfold write_library, try_except.
  cbv [bind call emit lift set_csv_file logging_info logging_error sys_exit
       raise].
  rewrite Hm, Ho.
  change (writerow fields ?s) with (Ret tt, wrote [fields] s).
  cbv beta iota.
  rewrite writerows_run, Hc. reflexivity.
Qed.

(** ** The exporter as a whole *)

Lemma bind_ok {A B} (m : M A) (k : A -> M B) (st st1 : State) (a : A) :
  m st = (Ret a, st1) -> bind m k st = k a st1.
Proof. unfold bind. now intros ->. Qed.

Lemma get_library_ok (w : ExportWorld) (c : Credential)
    (payload : list (string * PyVal)) (items : list PyVal) (st : State) :
  export_succeeds w c payload items ->
  forallb is_dict items = true ->
  exists st',
    get_library w AUTH_FILE st = (Ret (book_rows items), st')
    /\ csv_file st' = csv_file st.
Proof.
  intros (_ & Hex & Hff & Hcg & Hit & _) Hd.
  unfold get_library, try_except.
  cbv [bind call emit lift ret logging_error sys_exit raise].
  rewrite Hex. cbv [negb]. rewrite Hff. cbv beta iota. rewrite Hcg.
  cbv beta iota delta [py_get]. rewrite Hit. cbv beta iota delta [py_iter].
  rewrite book_loop_dicts by assumption.
  eexists. split; [reflexivity|].
  now rewrite (proj1 (book_states_files _ _)).
Qed.

Lemma main_ok (w : ExportWorld) (c : Credential)
    (payload : list (string * PyVal)) (items : list PyVal) :
  export_succeeds w c payload items ->
  forallb is_dict items = true ->
  exists st',
    main w init_state = (Ret tt, st')
    /\ csv_file st' = Some (fields :: book_rows items).
Proof.
  intros Hw Hd.
  pose proof Hw as (Hsl & _ & _ & _ & _ & Hmk & Hop & Hcl).
  unfold main.
  erewrite bind_ok
    by (unfold setup_logging, call, bind, emit, lift; rewrite Hsl; reflexivity).
  erewrite bind_ok by reflexivity.
  destruct (get_library_ok w c payload items
              (emitted (EvLogInfo "Starting Audible library retrieval.")
                 (emitted EvSetupLogging init_state)) Hw Hd)
    as (st1 & Hg & _).
  erewrite bind_ok by exact Hg.
  pose proof (write_library_ok w (book_rows items) OUTPUT_FILE "data" st1
                Hmk Hop Hcl) as Hr.
  pose proof (write_library_rows w (book_rows items) OUTPUT_FILE "data" st1
                Hmk Hop) as Hrows.
  destruct (write_library w (book_rows items) OUTPUT_FILE "data" st1)
    as [r st2] eqn:E.
  cbn [fst snd] in Hr, Hrows. subst r.
  erewrite bind_ok by exact E.
  eexists. split; [reflexivity|exact Hrows].
Qed.

(** C3. When every step of the exporter succeeds on a payload of N item
    records, the CSV file holds N+1 rows: the header, then one row per item,
    each the row of the item at the same position in the payload. *)
Theorem export_row_count_and_order (w : ExportWorld) (c : Credential)
    (payload : list (string * PyVal)) (items : list PyVal) :
  export_succeeds w c payload items ->
  forallb is_dict items = true ->
  exists rows st',
    main w init_state = (Ret tt, st')
    /\ csv_file st' = Some (fields :: rows)
    /\ List.length (fields :: rows) = S (List.length items)
    /\ Forall2 (fun book row => value_of (book_loop [book] []) = Ret [row])
               items rows.
Proof.
  intros Hw Hd.
  destruct (main_ok w c payload items Hw Hd) as (st' & Hmain & Hcsv).
  exists (book_rows items), st'. repeat split; try assumption.
  - cbn [List.length]. now rewrite book_rows_length.
  - now apply book_rows_pointwise.
Qed.

Lemma export_row_count_and_order_witness :
  exists rows st',
    main (world_serving (PyDict sample_payload)) init_state = (Ret tt, st')
    /\ csv_file st' = Some (fields :: rows)
    /\ List.length (fields :: rows) = 3%nat
    /\ Forall2 (fun book row => value_of (book_loop [book] []) = Ret [row])
               sample_items rows.
Proof.
  apply (export_row_count_and_order
           (world_serving (PyDict sample_payload)) "credential"
           sample_payload sample_items).
  - unfold export_succeeds. repeat split.
  - reflexivity.
Defined.

(** ** The header and the shape of a row *)

Lemma header_record : csv_record fields = Some (header_line ++ CRLF).
Proof. reflexivity. Qed.

(** C4. The header record is exactly the line
    [authors,title,narrators,runtime_mmm,runtime_hm,released,purchased]; it
    is the first row of the file; and the row produced for an item record
    has seven cells which, paired with the header names in order, are the
    authors text, the title, the narrators text, the runtime in minutes, the
    formatted runtime, the release date and the purchase date. *)
Theorem header_and_row_fields :
  csv_record fields = Some (header_line ++ CRLF)
  /\ (forall (w : ExportWorld) (library : list (list PyVal)) (st : State),
        ew_mkdir w = Ret tt ->
        ew_open w = Ret tt ->
        csv_file (snd (write_library w library OUTPUT_FILE "data" st))
          = Some (fields :: library))
  /\ (forall (d : list (string * PyVal)) (acc : list (list PyVal))
             (st : State),
        exists row st' authors narrators rt,
          book_loop [PyDict d] acc st = (Ret (acc ++ [row])%list, st')
          /\ value_of (get_contributors (dict_get d "authors" (PyList [])))
             = Ret authors
          /\ value_of (get_contributors (dict_get d "narrators" (PyList [])))
             = Ret narrators
          /\ value_of (convert_time (dict_get d "runtime_length_min" (PyInt 0)))
             = Ret rt
          /\ List.length row = 7%nat
          /\ combine fields row
             = [(PyStr "authors", PyStr authors);
                (PyStr "title", dict_get d "title" (PyStr "Unknown Title"));
                (PyStr "narrators", PyStr narrators);
                (PyStr "runtime_mmm", fst rt);
                (PyStr "runtime_hm", PyStr (snd rt));
                (PyStr "released",
                 dict_get d "release_date" (PyStr "Unknown Release Date"));
                (PyStr "purchased",
                 dict_get d "purchase_date" (PyStr "Unknown Purchase Date"))]).
Proof.
  split; [exact header_record|split].
  - intros w library st Hm Ho. now apply write_library_rows.
  - intros d acc st.
    exists (book_row d), (book_state d st).
    exists (contributors_text (dict_get d "authors" (PyList []))).
    exists (contributors_text (dict_get d "narrators" (PyList []))).
    exists (runtime_pair (dict_get d "runtime_length_min" (PyInt 0))).
    unfold value_of.
    rewrite book_loop_dict, !get_contributors_run, convert_time_run.
    repeat split.
Qed.

Lemma header_and_row_fields_witness :
  csv_file
    (snd (write_library (world_serving PyNone) [[PyStr "a"]] OUTPUT_FILE
                        "data" init_state))
  = Some [fields; [PyStr "a"]].
Proof.
  apply (proj1 (proj2 header_and_row_fields)); reflexivity.
Defined.

(** ** Missing fields *)

(** C9. A field missing from an item record is replaced on the spot and the
    loop goes on with a row for that item: a missing [runtime_length_min]
    gives 0 and ["0:00"], a missing [title], [release_date] or
    [purchase_date] gives its default text; and on item records the loop as
    a whole returns one row per item. *)
Theorem missing_fields_default :
  (forall (d : list (string * PyVal)) (acc : list (list PyVal)) (st : State),
      exists row st',
        book_loop [PyDict d] acc st = (Ret (acc ++ [row])%list, st')
        /\ (lookup "runtime_length_min" d = None ->
            nth_error row 3 = Some (PyInt 0)
            /\ nth_error row 4 = Some (PyStr "0:00"))
        /\ (lookup "title" d = None ->
            nth_error row 1 = Some (PyStr "Unknown Title"))
        /\ (lookup "release_date" d = None ->
            nth_error row 5 = Some (PyStr "Unknown Release Date"))
        /\ (lookup "purchase_date" d = None ->
            nth_error row 6 = Some (PyStr "Unknown Purchase Date")))
  /\ (forall (items : list PyVal) (st : State),
        forallb is_dict items = true ->
        exists rows st',
          book_loop items [] st = (Ret rows, st')
          /\ List.length rows = List.length items).
Proof.
  split.
  - intros d acc st.
    exists (book_row d), (book_state d st).
    rewrite book_loop_dict.
    split; [reflexivity|].
    unfold book_row, dict_get.
    split; [|split; [|split]]; intros H; rewrite H;
      [split; reflexivity|reflexivity..].
  - intros items st Hd.
    exists (book_rows items), (book_states items st).
    rewrite book_loop_dicts by assumption.
    split; [reflexivity|now apply book_rows_length].
Qed.

Lemma missing_fields_default_witness :
  (exists row st',
      book_loop [empty_book] [] init_state = (Ret [row], st')
      /\ nth_error row 1 = Some (PyStr "Unknown Title")
      /\ nth_error row 3 = Some (PyInt 0)
      /\ nth_error row 4 = Some (PyStr "0:00")
      /\ nth_error row 5 = Some (PyStr "Unknown Release Date")
      /\ nth_error row 6 = Some (PyStr "Unknown Purchase Date"))
  /\ (exists rows st',
        book_loop sample_items [] init_state = (Ret rows, st')
        /\ List.length rows = 2%nat).
Proof.
  split.
  - destruct (proj1 missing_fields_default [] [] init_state)
      as (row & st' & Hrun & Hrt & Ht & Hr & Hp).
    exists row, st'.
    split; [exact Hrun|].
    split; [apply Ht; reflexivity|].
    split; [apply Hrt; reflexivity|].
    split; [apply Hrt; reflexivity|].
    split; [apply Hr; reflexivity|apply Hp; reflexivity].
  - apply (proj2 missing_fields_default sample_items init_state).
    reflexivity.
Defined.

(** ** A missing credential file *)

(** C7. When the credential file does not exist, the exporter ends with a
    non-zero exit status, and neither the credential is loaded nor the
    library requested; the CSV file is not touched either.  The second
    hypothesis says that setting up the log does not itself ask to exit. *)
Theorem missing_auth_file (w : ExportWorld) :
  ew_exists w = false ->
  (forall code, ew_setup_logging w <> Exc (SystemExit code)) ->
  exit_status (fst (main w init_state)) <> 0
  /\ never is_network (snd (main w init_state)) = true
  /\ never is_credential_load (snd (main w init_state)) = true
  /\ never is_file_write (snd (main w init_state)) = true
  /\ csv_file (snd (main w init_state)) = None.
Proof.
  intros Hex Hsl.
  unfold main, setup_logging, get_library, try_except.
  cbv [bind call emit lift ret logging_info logging_error sys_exit raise].
  destruct (ew_setup_logging w) as [[]|e] eqn:E.
  - cbv beta iota. rewrite Hex. cbv. repeat split. discriminate.
  - cbv beta iota. cbv. repeat split.
    destruct e; try discriminate. now elim (Hsl code).
Qed.

Lemma missing_auth_file_witness :
  exit_status (fst (main world_without_credential init_state)) <> 0
  /\ never is_network (snd (main world_without_credential init_state)) = true
  /\ never is_credential_load
       (snd (main world_without_credential init_state)) = true
  /\ never is_file_write
       (snd (main world_without_credential init_state)) = true
  /\ csv_file (snd (main world_without_credential init_state)) = None.
Proof.
  apply (missing_auth_file world_without_credential).
  - reflexivity.
  - intros code H. discriminate H.
Defined.

(** ** The provisioner *)

(** C6. When the username or the password is empty once stripped, the
    provisioner prints the validation message and exits with status 1: the
    only actions are the two prompts and that message, so there is no login
    request and nothing is written. *)
Theorem empty_credentials_exit (w : LoginWorld) (user password : string) :
  lw_input w = Ret user ->
  lw_getpass w = Ret password ->
  strip user = EmptyString \/ strip password = EmptyString ->
  Authenticate.main w init_state
    = (Exc (SystemExit 1),
       mkState [EvInput "User: "; EvGetpass "Password: ";
                EvPrint "Username and password cannot be empty."]
               None None None)
  /\ exit_status (fst (Authenticate.main w init_state)) <> 0
  /\ never is_network (snd (Authenticate.main w init_state)) = true
  /\ never is_file_write (snd (Authenticate.main w init_state)) = true
  /\ auth_file (snd (Authenticate.main w init_state)) = None.
Proof.
  intros Hu Hp Hempty.
  assert (Hrun : Authenticate.main w init_state
    = (Exc (SystemExit 1),
       mkState [EvInput "User: "; EvGetpass "Password: ";
                EvPrint "Username and password cannot be empty."]
               None None None)).
  { unfold Authenticate.main.
    cbv [bind call emit lift ret print sys_exit raise].
    rewrite Hu. cbv beta iota. rewrite Hp. cbv beta iota.
    destruct Hempty as [-> | ->].
    - reflexivity.
    - cbv [str_truthy]. rewrite orb_true_r. reflexivity. }
  rewrite Hrun. repeat split. discriminate.
Qed.

Lemma empty_credentials_exit_witness :
  Authenticate.main (session "   " "secret" true) init_state
    = (Exc (SystemExit 1),
       mkState [EvInput "User: "; EvGetpass "Password: ";
                EvPrint "Username and password cannot be empty."]
               None None None).
Proof.
  apply (empty_credentials_exit (session "   " "secret" true)
                                "   " "secret");
    [reflexivity | reflexivity | left; reflexivity].
Defined.

(** C8. When the login succeeds and the credential file is written on a
    platform whose [os] module has no [chmod], the missing permission step
    is passed over in silence: the run prints the confirmation, ends with
    status 0, leaves the credential in the file and sets no mode. *)
Theorem chmod_unsupported_tolerated (w : LoginWorld) (user password : string)
    (c : Credential) :
  lw_input w = Ret user ->
  lw_getpass w = Ret password ->
  strip user <> EmptyString ->
  strip password <> EmptyString ->
  lw_from_login w (strip user) (strip password) = Ret c ->
  lw_mkdir w = Ret tt ->
  lw_to_file w = Ret tt ->
  lw_has_chmod w = false ->
  Authenticate.main w init_state
    = (Ret tt,
       mkState [EvInput "User: "; EvGetpass "Password: ";
                EvFromLogin (strip user) (strip password) "us" false;
                EvMkdir "auth"; EvToFile "auth/audible_auth.txt";
                EvPrint "Authentication details saved to auth/audible_auth.txt"]
               None (Some c) None)
  /\ exit_status (fst (Authenticate.main w init_state)) = 0.
Proof.
  intros Hu Hp Hnu Hnp Hlogin Hmk Htf Hch.
  assert (Hrun : Authenticate.main w init_state
    = (Ret tt,
       mkState [EvInput "User: "; EvGetpass "Password: ";
                EvFromLogin (strip user) (strip password) "us" false;
                EvMkdir "auth"; EvToFile "auth/audible_auth.txt";
                EvPrint "Authentication details saved to auth/audible_auth.txt"]
               None (Some c) None)).
  { unfold Authenticate.main, Authenticate.os_chmod, try_except.
    cbv [bind call emit lift ret print sys_exit raise set_auth_file
         set_auth_mode Authenticate.COUNTRY_CODE Authenticate.FILENAME].
    rewrite Hu. cbv beta iota. rewrite Hp. cbv beta iota.
    destruct (strip user) as [|cu ru]; [congruence|].
    destruct (strip password) as [|cp rp]; [congruence|].
    cbv [str_truthy negb orb]. rewrite Hlogin. cbv beta iota.
    rewrite Hmk. cbv beta iota. rewrite Htf. cbv beta iota.
    rewrite Hch. reflexivity. }
  rewrite Hrun. split; reflexivity.
Qed.

Lemma chmod_unsupported_tolerated_witness :
  Authenticate.main (session "  bob " "secret" false) init_state
    = (Ret tt,
       mkState [EvInput "User: "; EvGetpass "Password: ";
                EvFromLogin "bob" "secret" "us" false;
                EvMkdir "auth"; EvToFile "auth/audible_auth.txt";
                EvPrint "Authentication details saved to auth/audible_auth.txt"]
               None (Some "credential") None).
Proof.
  apply (chmod_unsupported_tolerated (session "  bob " "secret" false)
                                     "  bob " "secret" "credential");
    try reflexivity; discriminate.
Defined.

(** Where [os.chmod] exists, the step is taken: the mode is set to 0o600
    when the call succeeds, and an OSError from it is caught by the outer
    handler, which reports a write failure and exits with status 1. *)
Lemma chmod_supported_runs :
  auth_mode (snd (Authenticate.main (session "bob" "secret" true) init_state))
    = Some 384
  /\ fst (Authenticate.main (session_chmod_fails "bob" "secret") init_state)
     = Exc (SystemExit 1).
Proof. split; reflexivity. Qed.

(** * Further properties *)

(** ** The formatted runtime reads back *)

Lemma nilempty_no_colon (d : Decimal.uint) :
  has_colon (NilEmpty.string_of_uint d) = false.
Proof. induction d; cbn; auto. Qed.

Lemma str_int_no_colon (z : Z) : has_colon (str_int z) = false.
Proof.
  unfold str_int, NilZero.string_of_int, NilZero.string_of_uint.
  destruct (Z.to_int z) as [d|d]; destruct d;
    try reflexivity; cbn; apply nilempty_no_colon.
Qed.

Lemma split_colon_app (a b : string) :
  has_colon a = false -> split_colon (a ++ ":" ++ b) = Some (a, b).
Proof.
  induction a as [|c a IH]; [reflexivity|].
  intros H. cbn [has_colon] in H.
  apply orb_false_iff in H. destruct H as [Hc Ha].
  change (String c a ++ ":" ++ b) with (String c (a ++ ":" ++ b)).
  cbn [split_colon]. rewrite Hc, (IH Ha). reflexivity.
Qed.

Lemma parse_two_digits_range :
  forallb (fun r => match parse_int (two_digits r) with
                    | Some x => Z.eqb x r
                    | None => false
                    end) minutes_range = true.
Proof. vm_compute. reflexivity. Qed.

Lemma parse_two_digits (r : Z) :
  0 <= r < 60 -> parse_int (two_digits r) = Some r.
Proof.
  intros Hr.
  assert (Hin : In r minutes_range).
  { unfold minutes_range. rewrite <- (Z2Nat.id r) by lia.
    apply in_map, in_seq. lia. }
  pose proof (proj1 (forallb_forall _ _) parse_two_digits_range r Hin) as H.
  cbv beta in H.
  destruct (parse_int (two_digits r)) as [x|]; [|discriminate].
  apply Z.eqb_eq in H. now subst.
Qed.

(** X1. For every int, negative ones included, the formatted runtime
    determines the number of minutes: cutting it at the colon and reading
    both numerals gives back [60 * hours + minutes = m]. *)
Theorem convert_time_reads_back (m : Z) (st : State) :
  exists hm,
    fst (convert_time (PyInt m) st) = Ret (PyInt m, hm)
    /\ minutes_of_hm hm = Some m.
Proof.
  exists (spec_hm m). rewrite convert_time_int. split; [reflexivity|].
  unfold minutes_of_hm, spec_hm.
  rewrite split_colon_app by apply str_int_no_colon.
  rewrite parse_str_int, parse_two_digits
    by (apply Z.mod_pos_bound; lia).
  f_equal. symmetry. apply Z_div_mod_eq_full.
Qed.

(** ** get_contributors outside lists of well-formed records *)

Lemma str_join_non_str (sep : string) (items : list PyVal) :
  forallb is_str items = false -> str_join sep items = Exc TypeError.
Proof.
  induction items as [|x rest IH]; [discriminate|].
  cbn [forallb]. intros H. apply andb_false_iff in H.
  destruct x; try reflexivity.
  destruct H as [H | H]; [discriminate|].
  cbn [str_join]. rewrite (IH H).
  destruct rest; [discriminate H|reflexivity].
Qed.

Lemma comprehension_text (items : list PyVal) :
  forallb text_name items = false ->
  (exists e, comprehension name_of items = Exc e)
  \/ (exists vals, comprehension name_of items = Ret vals
                   /\ forallb is_str vals = false).
Proof.
  induction items as [|x rest IH]; [discriminate|].
  cbn [forallb comprehension]. intros H. apply andb_false_iff in H.
  destruct (name_of x) as [y|e] eqn:Ex; [|left; eauto].
  destruct H as [H | H].
  - destruct (comprehension name_of rest) as [ys|e]; [|left; eauto].
    right. exists (y :: ys). split; [reflexivity|].
    cbn [forallb]. apply andb_false_iff. left.
    unfold name_of, text_name in *.
    destruct x; try discriminate Ex. cbn in Ex.
    destruct (lookup "name" d) as [v|]; [|discriminate Ex].
    injection Ex as <-. destruct v; try reflexivity. discriminate H.
  - destruct (IH H) as [[e ->] | (vals & -> & Hv)]; [left; eauto|].
    right. exists (y :: vals). split; [reflexivity|].
    cbn [forallb]. apply andb_false_iff. now right.
Qed.

(** X2. A list in which some element has no text under ['name'] (the element
    is no record, the key is missing, or its value is not a str, e.g. null)
    makes [get_contributors] log the error and return ["N/A"]: the names of
    the other elements are dropped. *)
Theorem get_contributors_non_text_name (l : list PyVal) (st : State) :
  forallb text_name l = false ->
  get_contributors (PyList l) st
    = (Ret "N/A", logged "Error retrieving contributors" st).
Proof.
  intros H. rewrite get_contributors_run.
  unfold contributors_text, contributors_state, contributors_result.
  cbn [py_iter].
  destruct (comprehension_text l H) as [[e ->] | (vals & -> & Hv)].
  - reflexivity.
  - rewrite (str_join_non_str _ _ Hv). reflexivity.
Qed.

Lemma get_contributors_non_text_name_witness :
  get_contributors
    (PyList [PyDict [("name", PyStr "A")]; PyDict [("name", PyNone)]])
    init_state
  = (Ret "N/A", logged "Error retrieving contributors" init_state).
Proof.
  apply get_contributors_non_text_name. reflexivity.
Defined.

(** X3. A str or a dict given in place of the list is iterated, character by
    character or key by key, and none of these has a ['name']: the result is
    ["N/A"] with the error logged, except for the empty str and the empty
    dict, which give the empty text and log nothing. *)
Theorem get_contributors_str_or_dict :
  (forall (s : string) (st : State),
      get_contributors (PyStr s) st
        = match s with
          | EmptyString => (Ret EmptyString, st)
          | String _ _ =>
              (Ret "N/A", logged "Error retrieving contributors" st)
          end)
  /\ (forall (d : list (string * PyVal)) (st : State),
        get_contributors (PyDict d) st
          = match d with
            | [] => (Ret EmptyString, st)
            | _ :: _ =>
                (Ret "N/A", logged "Error retrieving contributors" st)
            end).
Proof.
  split.
  - intros s st. rewrite get_contributors_run.
    destruct s as [|c s]; reflexivity.
  - intros d st. rewrite get_contributors_run.
    destruct d as [|[k v] d]; reflexivity.
Qed.

(** ** The cells of a row *)

(** X4. A field that is present in an item record goes into the row as it
    is, whatever its value: a title, release date or purchase date given as
    null stays [None]; the default text is used for a missing key only. *)
Theorem present_fields_pass_through (d : list (string * PyVal))
    (acc : list (list PyVal)) (st : State) :
  exists row st',
    book_loop [PyDict d] acc st = (Ret (acc ++ [row])%list, st')
    /\ (forall v, lookup "title" d = Some v -> nth_error row 1 = Some v)
    /\ (forall v, lookup "release_date" d = Some v ->
                  nth_error row 5 = Some v)
    /\ (forall v, lookup "purchase_date" d = Some v ->
                  nth_error row 6 = Some v).
Proof.
  exists (book_row d), (book_state d st).
  rewrite book_loop_dict. split; [reflexivity|].
  unfold book_row, dict_get.
  split; [|split]; intros v H; rewrite H; reflexivity.
Qed.

(** X5. An item record without ['authors'] (or without ['narrators']) gets
    the empty text in that cell, not ["N/A"]: the default is the empty list,
    whose join is empty. *)
Theorem missing_contributors_empty (d : list (string * PyVal))
    (acc : list (list PyVal)) (st : State) :
  exists row st',
    book_loop [PyDict d] acc st = (Ret (acc ++ [row])%list, st')
    /\ (lookup "authors" d = None ->
        nth_error row 0 = Some (PyStr EmptyString))
    /\ (lookup "narrators" d = None ->
        nth_error row 2 = Some (PyStr EmptyString)).
Proof.
  exists (book_row d), (book_state d st).
  rewrite book_loop_dict. split; [reflexivity|].
  unfold book_row, dict_get.
  split; intros H; rewrite H; reflexivity.
Qed.

Lemma missing_contributors_empty_witness :
  exists row st',
    book_loop [empty_book] [] init_state = (Ret [row], st')
    /\ nth_error row 0 = Some (PyStr EmptyString)
    /\ nth_error row 2 = Some (PyStr EmptyString).
Proof.
  destruct (missing_contributors_empty [] [] init_state)
    as (row & st' & Hrun & Ha & Hn).
  exists row, st'.
  split; [exact Hrun|].
  split; [apply Ha; reflexivity|apply Hn; reflexivity].
Defined.




Lemma present_fields_pass_through_witness :
  exists row st',
    book_loop [PyDict [("title", PyNone)]] [] init_state = (Ret [row], st')
    /\ nth_error row 1 = Some PyNone.
Proof.
  destruct (present_fields_pass_through [("title", PyNone)] [] init_state)
    as (row & st' & Hrun & Ht & _).
  exists row, st'.
  split; [exact Hrun|apply Ht; reflexivity].
Defined.

(** ** Items that are not records *)

Lemma book_loop_non_dict (books : list PyVal) (acc : list (list PyVal))
    (st : State) :
  forallb is_dict books = false ->
  book_loop books acc st
    = (Exc AttributeError, book_states (dict_prefix books) st).
Proof.
  revert acc st.
  induction books as [|book rest IH]; intros acc st H; [discriminate|].
  destruct book; try reflexivity.
  cbn [forallb is_dict andb] in H.
  rewrite book_loop_dict, IH by assumption. reflexivity.
Qed.

Lemma book_loop_returns_dicts (books : list PyVal)
    (acc rows : list (list PyVal)) (st st' : State) :
  book_loop books acc st = (Ret rows, st') ->
  forallb is_dict books = true.
Proof.
  intros H. destruct (forallb is_dict books) eqn:E; [reflexivity|].
  rewrite book_loop_non_dict in H by assumption. discriminate H.
Qed.

Lemma never_logged (p : Event -> bool) (msg : string) (st : State) :
  p (EvLogError msg) = false -> never p (logged msg st) = never p st.
Proof.
  intros H. unfold never, logged. cbn [trace].
  rewrite forallb_app. cbn. rewrite H. cbn. now rewrite andb_true_r.
Qed.

(** The loop only ever adds error lines to the trace. *)
Lemma never_book_states (p : Event -> bool) (books : list PyVal)
    (st : State) :
  (forall msg, p (EvLogError msg) = false) ->
  never p (book_states books st) = never p st.
Proof.
  intros Hp. revert st.
  induction books as [|book rest IH]; intros st; [reflexivity|].
  destruct book; cbn [book_states]; try apply IH.
  rewrite IH. unfold book_state, runtime_state, contributors_state.
  repeat match goal with
         | |- context [match ?x with _ => _ end] => destruct x
         | |- context [if ?x then _ else _] => destruct x
         end; rewrite ?never_logged by apply Hp; reflexivity.
Qed.

(** ** The exporter after the fetch *)

Lemma get_library_fetched (w : ExportWorld) (c : Credential)
    (library : PyVal) (st : State) :
  ew_exists w = true ->
  ew_from_file w = Ret c ->
  ew_client_get w c = Ret library ->
  get_library w AUTH_FILE st
    = match payload_items library with
      | Ret books => book_loop books [] (fetched st)
      | Exc e => (Exc e, fetched st)
      end.
Proof.
  intros Hex Hff Hcg.
  unfold get_library, try_except, payload_items.
  cbv [bind call emit lift ret logging_error sys_exit raise].
  rewrite Hex. cbv [negb]. rewrite Hff. cbv beta iota. rewrite Hcg.
  cbv beta iota.
  destruct (py_get library "items" (PyList [])) as [items|e];
    [|reflexivity].
  destruct (py_iter items); reflexivity.
Qed.

Lemma main_fetched (w : ExportWorld) (c : Credential) (library : PyVal) :
  ew_setup_logging w = Ret tt ->
  ew_exists w = true ->
  ew_from_file w = Ret c ->
  ew_client_get w c = Ret library ->
  main w init_state
    = match payload_items library with
      | Ret books =>
          (rows <- book_loop books [] ;;
           write_library w rows OUTPUT_FILE "data" ;;
           logging_info "Audible library retrieval completed successfully.")
            (fetched started)
      | Exc e => (Exc e, fetched started)
      end.
Proof.
  intros Hsl Hex Hff Hcg.
  unfold main.
  erewrite bind_ok
    by (unfold setup_logging, call, bind, emit, lift; rewrite Hsl; reflexivity).
  erewrite bind_ok by reflexivity.
  fold started.
  unfold bind at 1.
  rewrite (get_library_fetched w c library) by assumption.
  destruct (payload_items library) as [books|e]; reflexivity.
Qed.

Lemma bind_exc {A B} (m : M A) (k : A -> M B) (st st1 : State) (e : PyExc) :
  m st = (Exc e, st1) -> bind m k st = (Exc e, st1).
Proof. unfold bind. now intros ->. Qed.

Lemma main_writes (w : ExportWorld) (c : Credential) (library : PyVal)
    (items : list PyVal) :
  ew_setup_logging w = Ret tt ->
  ew_exists w = true ->
  ew_from_file w = Ret c ->
  ew_client_get w c = Ret library ->
  payload_items library = Ret items ->
  forallb is_dict items = true ->
  ew_mkdir w = Ret tt ->
  ew_open w = Ret tt ->
  ew_close w = Ret tt ->
  exists st',
    main w init_state = (Ret tt, st')
    /\ csv_file st' = Some (fields :: book_rows items).
Proof.
  intros Hsl Hex Hff Hcg Hit Hd Hmk Hop Hcl.
  rewrite (main_fetched w c library), Hit by assumption.
  erewrite bind_ok by (apply book_loop_dicts; assumption).
  cbn [app].
  pose proof (write_library_ok w (book_rows items) OUTPUT_FILE "data"
                (book_states items (fetched started)) Hmk Hop Hcl) as Hr.
  pose proof (write_library_rows w (book_rows items) OUTPUT_FILE "data"
                (book_states items (fetched started)) Hmk Hop) as Hrows.
  destruct (write_library w (book_rows items) OUTPUT_FILE "data"
              (book_states items (fetched started))) as [r st2] eqn:E.
  cbn [fst snd] in Hr, Hrows. subst r.
  erewrite bind_ok by exact E.
  eexists. split; [reflexivity|exact Hrows].
Qed.

(** X7. If one value among the items is not a record, [book.get] raises
    AttributeError, which nothing catches: the exporter stops with a
    traceback (status 1) before [write_library], so no CSV file is opened
    and the rows of the items read so far are lost. *)
Theorem non_record_item_aborts (w : ExportWorld) (c : Credential)
    (library : PyVal) (items : list PyVal) :
  ew_setup_logging w = Ret tt ->
  ew_exists w = true ->
  ew_from_file w = Ret c ->
  ew_client_get w c = Ret library ->
  payload_items library = Ret items ->
  forallb is_dict items = false ->
  fst (main w init_state) = Exc AttributeError
  /\ exit_status (fst (main w init_state)) = 1
  /\ csv_file (snd (main w init_state)) = None
  /\ never is_file_write (snd (main w init_state)) = true.
Proof.
  intros Hsl Hex Hff Hcg Hit Hd.
  rewrite (main_fetched w c library), Hit by assumption.
  erewrite bind_exc by (apply book_loop_non_dict; assumption).
  cbn [fst snd exit_status].
  repeat split.
  - now rewrite (proj1 (book_states_files _ _)).
  - now rewrite never_book_states.
Qed.

Lemma non_record_item_aborts_witness :
  fst (main (world_serving
               (PyDict [("items", PyList [sample_book; PyNone])]))
            init_state)
  = Exc AttributeError.
Proof.
  apply (non_record_item_aborts
           (world_serving (PyDict [("items", PyList [sample_book; PyNone])]))
           "credential"
           (PyDict [("items", PyList [sample_book; PyNone])])
           [sample_book; PyNone]); reflexivity.
Defined.

(** X8. A response without an ['items'] key is read as an empty library:
    the run succeeds and the CSV file holds the header alone. *)
Theorem no_items_key_header_only (w : ExportWorld) (c : Credential)
    (payload : list (string * PyVal)) :
  ew_setup_logging w = Ret tt ->
  ew_exists w = true ->
  ew_from_file w = Ret c ->
  ew_client_get w c = Ret (PyDict payload) ->
  lookup "items" payload = None ->
  ew_mkdir w = Ret tt ->
  ew_open w = Ret tt ->
  ew_close w = Ret tt ->
  exists st',
    main w init_state = (Ret tt, st')
    /\ csv_file st' = Some [fields].
Proof.
  intros Hsl Hex Hff Hcg Hno Hmk Hop Hcl.
  apply (main_writes w c (PyDict payload) []); try assumption.
  - unfold payload_items. cbn [py_get]. rewrite Hno. reflexivity.
  - reflexivity.
Qed.

Lemma no_items_key_header_only_witness :
  exists st',
    main (world_serving (PyDict [("total", PyInt 0)])) init_state
      = (Ret tt, st')
    /\ csv_file st' = Some [fields].
Proof.
  apply (no_items_key_header_only
           (world_serving (PyDict [("total", PyInt 0)])) "credential"
           [("total", PyInt 0)]); reflexivity.
Defined.

(** ** A normal exit means a complete file *)

Lemma bind_ret_inv {A B} (m : M A) (k : A -> M B) (st st' : State) (b : B) :
  bind m k st = (Ret b, st') ->
  exists a st1, m st = (Ret a, st1) /\ k a st1 = (Ret b, st').
Proof.
  unfold bind. destruct (m st) as [[a|e] st1]; [eauto|discriminate].
Qed.

Lemma get_library_ret_inv (w : ExportWorld) (rows : list (list PyVal))
    (st st1 : State) :
  get_library w AUTH_FILE st = (Ret rows, st1) ->
  exists c library items,
    ew_exists w = true
    /\ ew_from_file w = Ret c
    /\ ew_client_get w c = Ret library
    /\ payload_items library = Ret items
    /\ forallb is_dict items = true
    /\ rows = book_rows items
    /\ csv_file st1 = csv_file st.
Proof.
  intros H.
  destruct (ew_exists w) eqn:Hex.
  - destruct (ew_from_file w) as [c|e] eqn:Hff.
    + destruct (ew_client_get w c) as [library|e] eqn:Hcg.
      * rewrite (get_library_fetched w c library) in H by assumption.
        destruct (payload_items library) as [items|e] eqn:Hit;
          [|discriminate H].
        pose proof (book_loop_returns_dicts _ _ _ _ _ H) as Hd.
        rewrite book_loop_dicts in H by assumption.
        injection H as <- <-.
        exists c, library, items. repeat split; try assumption.
        now rewrite (proj1 (book_states_files _ _)).
      * exfalso. unfold get_library, try_except in H.
        cbv [bind call emit lift ret logging_error sys_exit raise] in H.
        rewrite Hex, Hff in H. cbv [negb] in H. rewrite Hcg in H.
        destruct e; discriminate H.
    + exfalso. unfold get_library, try_except in H.
      cbv [bind call emit lift ret logging_error sys_exit raise] in H.
      rewrite Hex, Hff in H. destruct e; discriminate H.
  - exfalso. unfold get_library, try_except in H.
    cbv [bind call emit lift ret logging_error sys_exit raise] in H.
    rewrite Hex in H. discriminate H.
Qed.

Lemma write_library_ret_inv (w : ExportWorld) (library : list (list PyVal))
    (file dir : string) (st st' : State) :
  write_library w library file dir st = (Ret tt, st') ->
  ew_mkdir w = Ret tt /\ ew_open w = Ret tt.
Proof.
  intros H.
  unfold write_library, try_except in H.
  cbv [bind call emit lift ret logging_info logging_error sys_exit raise
       set_csv_file] in H.
  destruct (ew_mkdir w) as [[]|e];
    [|exfalso; destruct e; discriminate H].
  destruct (ew_open w) as [[]|e];
    [|exfalso; destruct e; discriminate H].
  now split.
Qed.

(** X9. The exporter returns normally (exit status 0) only when the whole
    pipeline went through: the credential was loaded, the request answered,
    every item was a record, and the CSV file holds the header followed by
    one row per item.  No failure is passed over in silence. *)
Theorem normal_exit_means_complete (w : ExportWorld) (st' : State) :
  main w init_state = (Ret tt, st') ->
  exists c library items,
    ew_from_file w = Ret c
    /\ ew_client_get w c = Ret library
    /\ payload_items library = Ret items
    /\ forallb is_dict items = true
    /\ csv_file st' = Some (fields :: book_rows items)
    /\ List.length (fields :: book_rows items) = S (List.length items).
Proof.
  intros H. unfold main in H.
  apply bind_ret_inv in H. destruct H as (u1 & s1 & _ & H).
  apply bind_ret_inv in H. destruct H as (u2 & s2 & _ & H).
  apply bind_ret_inv in H. destruct H as (rows & s3 & Hget & H).
  apply bind_ret_inv in H. destruct H as (u4 & s4 & Hwrite & H).
  destruct u4.
  apply get_library_ret_inv in Hget.
  destruct Hget as (c & library & items & _ & Hff & Hcg & Hit & Hd & -> & _).
  exists c, library, items.
  destruct (write_library_ret_inv _ _ _ _ _ _ Hwrite) as [Hmk Hop].
  pose proof (write_library_rows w (book_rows items) OUTPUT_FILE "data" s3
                Hmk Hop) as Hrows.
  rewrite Hwrite in Hrows. cbn [snd] in Hrows.
  injection H as <-.
  repeat split; try assumption.
  cbn [List.length]. now rewrite book_rows_length.
Qed.

Lemma normal_exit_means_complete_witness :
  exists c library items,
    ew_from_file (world_serving (PyDict sample_payload)) = Ret c
    /\ ew_client_get (world_serving (PyDict sample_payload)) c = Ret library
    /\ payload_items library = Ret items
    /\ forallb is_dict items = true
    /\ csv_file (snd (main (world_serving (PyDict sample_payload))
                           init_state))
       = Some (fields :: book_rows items)
    /\ List.length (fields :: book_rows items) = S (List.length items).
Proof.
  apply (normal_exit_means_complete
           (world_serving (PyDict sample_payload))
           (snd (main (world_serving (PyDict sample_payload)) init_state))).
  vm_compute. reflexivity.
Defined.

(** ** Failures of the fetch and of the write *)

(** X10. When the credential file is there but cannot be loaded
    (AuthenticationError), the exporter logs the failure and exits with
    status 1 without sending the library request or touching the CSV file. *)
Theorem credential_load_failure_exits (w : ExportWorld) :
  ew_setup_logging w = Ret tt ->
  ew_exists w = true ->
  ew_from_file w = Exc AuthenticationError ->
  main w init_state
    = (Exc (SystemExit 1),
       mkState [EvSetupLogging;
                EvLogInfo "Starting Audible library retrieval.";
                EvExists "auth/audible_auth.txt";
                EvFromFile "auth/audible_auth.txt";
                EvLogError "Failed to authenticate"]
               None None None).
Proof.
  intros Hsl Hex Hff.
  unfold main, setup_logging, get_library, try_except.
  cbv [bind call emit lift ret logging_info logging_error sys_exit raise].
  rewrite Hsl. cbv beta iota. rewrite Hex. cbv [negb]. rewrite Hff.
  reflexivity.
Qed.

Lemma credential_load_failure_exits_witness :
  never is_network
    (snd (main (mkExportWorld (Ret tt) true (Exc AuthenticationError)
                              (fun _ => Ret PyNone) (Ret tt) (Ret tt)
                              (Ret tt))
               init_state)) = true.
Proof.
  rewrite (credential_load_failure_exits
             (mkExportWorld (Ret tt) true (Exc AuthenticationError)
                            (fun _ => Ret PyNone) (Ret tt) (Ret tt) (Ret tt)))
    by reflexivity.
  reflexivity.
Defined.

(** X11. When the library request fails (APIError), the exporter logs the
    failure and exits with status 1; the request was sent once and the CSV
    file is not opened. *)
Theorem api_failure_exits (w : ExportWorld) (c : Credential) :
  ew_setup_logging w = Ret tt ->
  ew_exists w = true ->
  ew_from_file w = Ret c ->
  ew_client_get w c = Exc APIError ->
  main w init_state
    = (Exc (SystemExit 1),
       mkState [EvSetupLogging;
                EvLogInfo "Starting Audible library retrieval.";
                EvExists "auth/audible_auth.txt";
                EvFromFile "auth/audible_auth.txt";
                EvClientGet "1.0/library" 1000
                  "product_desc, product_attrs, contributors" "Author";
                EvLogError "API request failed"]
               None None None).
Proof.
  intros Hsl Hex Hff Hcg.
  unfold main, setup_logging, get_library, try_except.
  cbv [bind call emit lift ret logging_info logging_error sys_exit raise].
  rewrite Hsl. cbv beta iota. rewrite Hex. cbv [negb]. rewrite Hff.
  cbv beta iota. rewrite Hcg. reflexivity.
Qed.

Lemma api_failure_exits_witness :
  never is_file_write
    (snd (main (mkExportWorld (Ret tt) true (Ret "credential")
                              (fun _ => Exc APIError) (Ret tt) (Ret tt)
                              (Ret tt))
               init_state)) = true.
Proof.
  rewrite (api_failure_exits
             (mkExportWorld (Ret tt) true (Ret "credential")
                            (fun _ => Exc APIError) (Ret tt) (Ret tt)
                            (Ret tt))
             "credential") by reflexivity.
  reflexivity.
Defined.

(** X12. An OSError while creating the directory, opening the file or
    closing it makes [write_library] log ["Failed to write CSV file"] and
    exit with status 1.  When the failure is in the first two steps the
    content of the CSV file is what it was before the call. *)
Theorem write_failure_exits (w : ExportWorld) (library : list (list PyVal))
    (file dir : string) (st : State) :
  ew_mkdir w = Exc OSError
  \/ (ew_mkdir w = Ret tt /\ ew_open w = Exc OSError)
  \/ (ew_mkdir w = Ret tt /\ ew_open w = Ret tt
      /\ ew_close w = Exc OSError) ->
  fst (write_library w library file dir st) = Exc (SystemExit 1)
  /\ last (trace (snd (write_library w library file dir st))) EvSetupLogging
     = EvLogError "Failed to write CSV file"
  /\ (ew_mkdir w = Exc OSError \/ ew_open w = Exc OSError ->
      csv_file (snd (write_library w library file dir st)) = csv_file st).
Proof.
  intros H.
  unfold write_library, try_except.
  cbv [bind call emit lift ret logging_info logging_error sys_exit raise
       set_csv_file].
  destruct H as [Hmk | [[Hmk Hop] | (Hmk & Hop & Hcl)]].
  - rewrite Hmk. cbn [fst snd trace csv_file].
    split; [reflexivity|]. split; [|reflexivity].
    apply last_last.
  - rewrite Hmk, Hop. cbn [fst snd trace csv_file].
    split; [reflexivity|]. split; [|reflexivity].
    apply last_last.
  - rewrite Hmk, Hop.
    change (writerow fields ?s) with (Ret tt, wrote [fields] s).
    cbv beta iota. rewrite writerows_run, Hcl.
    cbn [fst snd trace csv_file].
    split; [reflexivity|]. split; [apply last_last|].
    intros [Hbad | Hbad]; congruence.
Qed.

Lemma write_failure_exits_witness :
  fst (write_library
         (mkExportWorld (Ret tt) true (Ret "credential")
                        (fun _ => Ret PyNone) (Ret tt) (Exc OSError) (Ret tt))
         [] OUTPUT_FILE "data" init_state)
  = Exc (SystemExit 1).
Proof.
  apply (write_failure_exits
           (mkExportWorld (Ret tt) true (Ret "credential")
                          (fun _ => Ret PyNone) (Ret tt) (Exc OSError)
                          (Ret tt))
           [] OUTPUT_FILE "data" init_state).
  right. left. split; reflexivity.
Defined.

(** ** The provisioner: which inputs are refused *)

Lemma rstrip_empty (s : string) :
  rstrip s = EmptyString -> all_space s = true.
Proof.
  induction s as [|c s IH]; [reflexivity|].
  cbn [rstrip all_space].
  destruct (rstrip s) as [|c' s'] eqn:E; [|discriminate].
  destruct (is_space c); [|discriminate].
  intros _. now rewrite IH.
Qed.

Lemma lstrip_empty (s : string) :
  lstrip s = EmptyString <-> all_space s = true.
Proof.
  induction s as [|c s IH]; [now split|].
  cbn [lstrip all_space].
  destruct (is_space c); cbn [andb]; [exact IH|].
  split; discriminate.
Qed.

Lemma lstrip_head (s : string) (c : ascii) (rest : string) :
  lstrip s = String c rest -> is_space c = false.
Proof.
  induction s as [|c0 s IH]; [discriminate|].
  cbn [lstrip]. destruct (is_space c0) eqn:E; [exact IH|].
  intros H. injection H as -> _. exact E.
Qed.

(** [strip] leaves nothing exactly when there is nothing but whitespace. *)
Lemma strip_empty_iff (s : string) :
  strip s = EmptyString <-> all_space s = true.
Proof.
  unfold strip. split.
  - intros H. apply lstrip_empty.
    destruct (lstrip s) as [|c rest] eqn:E; [reflexivity|].
    apply rstrip_empty in H. cbn [all_space] in H.
    rewrite (lstrip_head _ _ _ E) in H. discriminate H.
  - intros H. apply lstrip_empty in H. now rewrite H.
Qed.

Lemma str_truthy_strip (s : string) :
  str_truthy (strip s) = negb (all_space s).
Proof.
  destruct (all_space s) eqn:E.
  - apply strip_empty_iff in E. now rewrite E.
  - destruct (strip s) eqn:Es; [|reflexivity].
    apply strip_empty_iff in Es. congruence.
Qed.

(** Up to the validation, whatever the world does afterwards. *)
Lemma main_validated (w : LoginWorld) (user password : string) :
  lw_input w = Ret user ->
  lw_getpass w = Ret password ->
  all_space user = false ->
  all_space password = false ->
  Authenticate.main w init_state
    = (auth <-
         try_except
           (call (EvFromLogin (strip user) (strip password) "us" false)
                 (lw_from_login w (strip user) (strip password)))
           (fun e => match e with AuthenticationError => true | _ => false end)
           (fun _ => print "Authentication failed" ;; sys_exit 1) ;;
       try_except
         (call (EvMkdir "auth") (lw_mkdir w) ;;
          call (EvToFile "auth/audible_auth.txt") (lw_to_file w) ;;
          set_auth_file auth ;;
          try_except
            (Authenticate.os_chmod w "auth/audible_auth.txt" 384)
            (fun e => match e with AttributeError => true | _ => false end)
            (fun _ => ret tt) ;;
          print "Authentication details saved to auth/audible_auth.txt")
         (fun e => match e with OSError => true | _ => false end)
         (fun _ => print "Failed to write authentication file" ;; sys_exit 1))
        (mkState [EvInput "User: "; EvGetpass "Password: "] None None None).
Proof.
  intros Hu Hp Hnu Hnp.
  unfold Authenticate.main.
  erewrite bind_ok
    by (unfold call, bind, emit, lift; rewrite Hu; reflexivity).
  erewrite bind_ok
    by (unfold call, bind, emit, lift; rewrite Hp; reflexivity).
  rewrite !str_truthy_strip, Hnu, Hnp. cbn [negb orb].
  erewrite bind_ok by reflexivity.
  reflexivity.
Qed.

(** X13. The provisioner refuses exactly the blank inputs: the login request
    is sent if and only if both the username and the password contain a
    character that is not whitespace, and then it carries the stripped
    texts, the locale ["us"] and [with_username=False]. *)
Theorem login_sent_iff_not_blank (w : LoginWorld) (user password : string) :
  lw_input w = Ret user ->
  lw_getpass w = Ret password ->
  never is_network (snd (Authenticate.main w init_state))
    = (all_space user || all_space password)%bool
  /\ (all_space user = false -> all_space password = false ->
      nth_error (trace (snd (Authenticate.main w init_state))) 2
        = Some (EvFromLogin (strip user) (strip password) "us" false)).
Proof.
  intros Hu Hp.
  destruct (all_space user) eqn:Eu.
  - split; [|discriminate].
    unfold Authenticate.main.
    cbv [bind call emit lift ret print sys_exit raise].
    rewrite Hu. cbv beta iota. rewrite Hp. cbv beta iota.
    rewrite !str_truthy_strip, Eu. reflexivity.
  - destruct (all_space password) eqn:Ep.
    + split; [|discriminate].
      unfold Authenticate.main.
      cbv [bind call emit lift ret print sys_exit raise].
      rewrite Hu. cbv beta iota. rewrite Hp. cbv beta iota.
      rewrite !str_truthy_strip, Eu, Ep. reflexivity.
    + rewrite (main_validated w user password) by assumption.
      unfold try_except, Authenticate.os_chmod.
      cbv [bind call emit lift ret print sys_exit raise set_auth_file
           set_auth_mode].
      destruct (lw_from_login w (strip user) (strip password)) as [c|e];
        [|destruct e; split; reflexivity].
      destruct (lw_mkdir w) as [[]|e]; [|destruct e; split; reflexivity].
      destruct (lw_to_file w) as [[]|e]; [|destruct e; split; reflexivity].
      destruct (lw_has_chmod w); [|split; reflexivity].
      destruct (lw_chmod w) as [[]|e]; [|destruct e]; split; reflexivity.
Qed.

Lemma login_sent_iff_not_blank_witness :
  nth_error
    (trace (snd (Authenticate.main (session "  bob " "secret" true)
                                   init_state))) 2
  = Some (EvFromLogin "bob" "secret" "us" false).
Proof.
  apply (login_sent_iff_not_blank (session "  bob " "secret" true)
                                  "  bob " "secret"); reflexivity.
Defined.

(** ** The provisioner: failures after the validation *)

(** X14. When the service rejects the login (AuthenticationError), the
    provisioner prints ["Authentication failed"] and exits with status 1;
    no directory is created and no credential file is written. *)
Theorem login_rejected_exits (w : LoginWorld) (user password : string) :
  lw_input w = Ret user ->
  lw_getpass w = Ret password ->
  all_space user = false ->
  all_space password = false ->
  lw_from_login w (strip user) (strip password) = Exc AuthenticationError ->
  Authenticate.main w init_state
    = (Exc (SystemExit 1),
       mkState [EvInput "User: "; EvGetpass "Password: ";
                EvFromLogin (strip user) (strip password) "us" false;
                EvPrint "Authentication failed"]
               None None None).
Proof.
  intros Hu Hp Hnu Hnp Hlogin.
  rewrite (main_validated w user password) by assumption.
  unfold try_except.
  cbv [bind call emit lift ret print sys_exit raise].
  rewrite Hlogin. reflexivity.
Qed.

Lemma login_rejected_exits_witness :
  never is_file_write
    (snd (Authenticate.main
            (mkLoginWorld (Ret "bob") (Ret "secret")
                          (fun _ _ => Exc AuthenticationError)
                          (Ret tt) (Ret tt) true (Ret tt))
            init_state)) = true.
Proof.
  rewrite (login_rejected_exits
             (mkLoginWorld (Ret "bob") (Ret "secret")
                           (fun _ _ => Exc AuthenticationError)
                           (Ret tt) (Ret tt) true (Ret tt))
             "bob" "secret") by reflexivity.
  reflexivity.
Defined.

(** X15. After a successful login, an OSError while creating the directory
    or writing the credential makes the provisioner print
    ["Failed to write authentication file"] and exit with status 1; no
    credential is stored and no permission is set. *)
Theorem credential_write_failure_exits (w : LoginWorld)
    (user password : string) (c : Credential) :
  lw_input w = Ret user ->
  lw_getpass w = Ret password ->
  all_space user = false ->
  all_space password = false ->
  lw_from_login w (strip user) (strip password) = Ret c ->
  lw_mkdir w = Exc OSError
  \/ (lw_mkdir w = Ret tt /\ lw_to_file w = Exc OSError) ->
  fst (Authenticate.main w init_state) = Exc (SystemExit 1)
  /\ last (trace (snd (Authenticate.main w init_state))) EvSetupLogging
     = EvPrint "Failed to write authentication file"
  /\ auth_file (snd (Authenticate.main w init_state)) = None
  /\ auth_mode (snd (Authenticate.main w init_state)) = None.
Proof.
  intros Hu Hp Hnu Hnp Hlogin Hfail.
  rewrite (main_validated w user password) by assumption.
  unfold try_except.
  cbv [bind call emit lift ret print sys_exit raise].
  rewrite Hlogin. cbv beta iota.
  destruct Hfail as [Hmk | [Hmk Htf]].
  - rewrite Hmk. repeat split.
  - rewrite Hmk. cbv beta iota. rewrite Htf. repeat split.
Qed.

Lemma credential_write_failure_exits_witness :
  fst (Authenticate.main
         (mkLoginWorld (Ret "bob") (Ret "secret")
                       (fun _ _ => Ret "credential")
                       (Ret tt) (Exc OSError) true (Ret tt))
         init_state)
  = Exc (SystemExit 1).
Proof.
  apply (credential_write_failure_exits
           (mkLoginWorld (Ret "bob") (Ret "secret")
                         (fun _ _ => Ret "credential")
                         (Ret tt) (Exc OSError) true (Ret tt))
           "bob" "secret" "credential"); try reflexivity.
  right. split; reflexivity.
Defined.

(** X16. Where [os.chmod] exists and succeeds, a successful run leaves the
    credential returned by the login in the file, with mode 0o600 (384) set
    after the write, and returns normally. *)
Theorem credential_saved_owner_only (w : LoginWorld)
    (user password : string) (c : Credential) :
  lw_input w = Ret user ->
  lw_getpass w = Ret password ->
  all_space user = false ->
  all_space password = false ->
  lw_from_login w (strip user) (strip password) = Ret c ->
  lw_mkdir w = Ret tt ->
  lw_to_file w = Ret tt ->
  lw_has_chmod w = true ->
  lw_chmod w = Ret tt ->
  Authenticate.main w init_state
    = (Ret tt,
       mkState [EvInput "User: "; EvGetpass "Password: ";
                EvFromLogin (strip user) (strip password) "us" false;
                EvMkdir "auth"; EvToFile "auth/audible_auth.txt";
                EvChmod "auth/audible_auth.txt" 384;
                EvPrint "Authentication details saved to auth/audible_auth.txt"]
               None (Some c) (Some 384)).
Proof.
  intros Hu Hp Hnu Hnp Hlogin Hmk Htf Hhas Hch.
  rewrite (main_validated w user password) by assumption.
  unfold try_except, Authenticate.os_chmod.
  cbv [bind call emit lift ret print sys_exit raise set_auth_file
       set_auth_mode].
  rewrite Hlogin. cbv beta iota. rewrite Hmk. cbv beta iota.
  rewrite Htf. cbv beta iota. rewrite Hhas, Hch. reflexivity.
Qed.

Lemma credential_saved_owner_only_witness :
  auth_mode
    (snd (Authenticate.main (session "bob" "secret" true) init_state))
  = Some 384.
Proof.
  rewrite (credential_saved_owner_only
             (session "bob" "secret" true) "bob" "secret" "credential")
    by reflexivity.
  reflexivity.
Defined.

(** X17. Where [os.chmod] exists and raises OSError, the inner handler does
    not apply: the outer one reports a write failure and the run exits with
    status 1, although the credential has been written; it stays in the
    file with no mode set. *)
Theorem chmod_oserror_exits_after_write (w : LoginWorld)
    (user password : string) (c : Credential) :
  lw_input w = Ret user ->
  lw_getpass w = Ret password ->
  all_space user = false ->
  all_space password = false ->
  lw_from_login w (strip user) (strip password) = Ret c ->
  lw_mkdir w = Ret tt ->
  lw_to_file w = Ret tt ->
  lw_has_chmod w = true ->
  lw_chmod w = Exc OSError ->
  Authenticate.main w init_state
    = (Exc (SystemExit 1),
       mkState [EvInput "User: "; EvGetpass "Password: ";
                EvFromLogin (strip user) (strip password) "us" false;
                EvMkdir "auth"; EvToFile "auth/audible_auth.txt";
                EvChmod "auth/audible_auth.txt" 384;
                EvPrint "Failed to write authentication file"]
               None (Some c) None).
Proof.
  intros Hu Hp Hnu Hnp Hlogin Hmk Htf Hhas Hch.
  rewrite (main_validated w user password) by assumption.
  unfold try_except, Authenticate.os_chmod.
  cbv [bind call emit lift ret print sys_exit raise set_auth_file
       set_auth_mode].
  rewrite Hlogin. cbv beta iota. rewrite Hmk. cbv beta iota.
  rewrite Htf. cbv beta iota. rewrite Hhas, Hch. reflexivity.
Qed.

Lemma chmod_oserror_exits_after_write_witness :
  auth_file
    (snd (Authenticate.main (session_chmod_fails "bob" "secret") init_state))
  = Some "credential".
Proof.
  rewrite (chmod_oserror_exits_after_write
             (session_chmod_fails "bob" "secret") "bob" "secret"
             "credential") by reflexivity.
  reflexivity.
Defined.

(** ** What the handlers of get_library let through *)

(** X18. The two handlers of [get_library] catch their own class only: any
    other exception raised while loading the credential or during the
    request leaves [get_library] as it is, with nothing logged about it and
    no exit requested by the program itself. *)
Theorem foreign_exceptions_escape (w : ExportWorld) (e : PyExc) (st : State) :
  ew_exists w = true ->
  (ew_from_file w = Exc e ->
   e <> AuthenticationError ->
   get_library w AUTH_FILE st
     = (Exc e, emitted (EvFromFile AUTH_FILE) (emitted (EvExists AUTH_FILE) st)))
  /\ (forall c,
        ew_from_file w = Ret c ->
        ew_client_get w c = Exc e ->
        e <> APIError ->
        get_library w AUTH_FILE st = (Exc e, fetched st)).
Proof.
  intros Hex. split.
  - intros Hff Hne.
    unfold get_library, try_except.
    cbv [bind call emit lift ret logging_error sys_exit raise].
    rewrite Hex. cbv [negb]. rewrite Hff.
    destruct e; try reflexivity. now elim Hne.
  - intros c Hff Hcg Hne.
    unfold get_library, try_except.
    cbv [bind call emit lift ret logging_error sys_exit raise].
    rewrite Hex. cbv [negb]. rewrite Hff. cbv beta iota. rewrite Hcg.
    destruct e; try reflexivity. now elim Hne.
Qed.

Lemma foreign_exceptions_escape_witness :
  get_library
    (mkExportWorld (Ret tt) true (Exc ValueError) (fun _ => Ret PyNone)
                   (Ret tt) (Ret tt) (Ret tt))
    AUTH_FILE init_state
  = (Exc ValueError,
     emitted (EvFromFile AUTH_FILE) (emitted (EvExists AUTH_FILE) init_state)).
Proof.
  apply (foreign_exceptions_escape
           (mkExportWorld (Ret tt) true (Exc ValueError)
                          (fun _ => Ret PyNone) (Ret tt) (Ret tt) (Ret tt))
           ValueError init_state eq_refl).
  - reflexivity.
  - discriminate.
Defined.
